(** * BattlEye RCon v2 server: packet codec, checksum and protocol engine

    A shallow embedding of the Go package [rcon] (checksum.go, packet.go and
    the server engine) together with the properties of the specification
    that were checked against it.

    Conventions of the embedding:
    - a Go [byte]/[uint8] is a [Byte.byte]; a [[]byte] is a [list byte];
    - a Go [string] is a [string]; [string(buf)] is [string_of_list_byte];
    - a Go [uint32] is a [Z] in [0, 2^32), wrap-around written out;
    - a [bytes.Reader] is the list of bytes not read yet;
    - an [error] is a value of [error]; a nil error is [None];
    - a [*cache.Cache] (patrickmn/go-cache) is a [gmap string (Item V)],
      read against the current time in nanoseconds;
    - writes to the socket and log lines are collected, in order, in a list
      of [Output]; the command callback of the host program is a function
      that gives the outputs it produces;
    - the goroutine started for a datagram runs to its end, at one time
      [now], before the next datagram is handled. *)

From Stdlib Require Import ZArith Lia List Bool.
From Stdlib Require Import Strings.Byte Strings.String Strings.Ascii.
From stdpp Require Import base option gmap strings pretty list fin_maps.

Local Open Scope Z_scope.

(** ** Bytes and fixed-width integers *)

#[global] Instance byte_eq_dec : EqDecision byte := Byte.byte_eq_dec.

Definition Z_of_byte (b : byte) : Z := Z.of_N (Byte.to_N b).

(** [byte(v)]: conversion of an unsigned integer to [byte] keeps the low
    eight bits. *)
Definition byte_of_Z (z : Z) : byte :=
  match Byte.of_N (Z.to_N (z mod 256)) with
  | Some b => b
  | None => x00
  end.

Definition uint32_mod : Z := 2 ^ 32.

(** [binary.LittleEndian.PutUint32] *)
Definition PutUint32 (v : Z) : list byte :=
  [byte_of_Z v; byte_of_Z (Z.shiftr v 8);
   byte_of_Z (Z.shiftr v 16); byte_of_Z (Z.shiftr v 24)].

(** [binary.LittleEndian.Uint32] on the four bytes read *)
Definition Uint32 (b0 b1 b2 b3 : byte) : Z :=
  Z.lor (Z.lor (Z.lor (Z_of_byte b0) (Z.shiftl (Z_of_byte b1) 8))
               (Z.shiftl (Z_of_byte b2) 16))
        (Z.shiftl (Z_of_byte b3) 24).

(** ** hash/crc32: the IEEE table and the byte-at-a-time update *)

Module crc32.

(** The reflected IEEE polynomial. *)
Definition IEEE : Z := 0xedb88320.

(** One round of the table construction:
    [if crc&1 == 1 { crc = (crc >> 1) ^ poly } else { crc >>= 1 }]. *)
Definition table_round (poly crc : Z) : Z :=
  if Z.testbit crc 0 then Z.lxor (Z.shiftr crc 1) poly else Z.shiftr crc 1.

(** Entry [i] of the table for [poly]: eight rounds starting from [i]. *)
Definition table_entry (poly i : Z) : Z :=
  Nat.iter 8 (table_round poly) i.

(** Loop body of the update: [crc = tab[byte(crc)^v] ^ (crc >> 8)]. *)
Definition update_byte (poly crc : Z) (v : byte) : Z :=
  Z.lxor (table_entry poly (Z.lxor (crc mod 256) (Z_of_byte v)))
         (Z.shiftr crc 8).

(** [^crc] on a [uint32]. *)
Definition not32 (crc : Z) : Z := Z.lxor crc 0xffffffff.

Definition update (poly crc : Z) (p : list byte) : Z :=
  not32 (fold_left (update_byte poly) p (not32 crc)).

Definition ChecksumIEEE (data : list byte) : Z := update IEEE 0 data.

End crc32.

(** ** checksum.go *)

(** NewChecksum creates a checksum for the bytes provided *)
Definition NewChecksum (data : list byte) : Z := crc32.ChecksumIEEE data.

(** VerifyChecksum check if the bytes matches the checksum provided *)
Definition VerifyChecksum (data : list byte) (checksum : Z) : bool :=
  NewChecksum data =? checksum.

(** ** Errors and readers *)

(** The errors that reach this package: the two end-of-input errors of
    package [io], and the values built by github.com/pkg/errors. *)
Inductive error : Type :=
  | EOF
  | ErrUnexpectedEOF
  | errors_New (message : string)
  | errors_Wrapped (cause : error) (message : string).

(** [errors.Wrap(err, message)]: annotates [err] with a message; by its
    documentation, "If err is nil, Wrap returns nil." *)
Definition errors_Wrap (err : option error) (message : string) : option error :=
  match err with
  | None => None
  | Some e => Some (errors_Wrapped e message)
  end.

(** A [bytes.Reader] as the bytes that remain to be read. *)
Definition Reader : Type := list byte.

(** [input.Len()] *)
Definition Reader_Len (input : Reader) : nat := length input.

(** [input.Read(buf)] for a buffer of [n > 0] bytes: at the end of the input
    it returns [0, io.EOF], otherwise it copies what fits. *)
Definition Reader_Read (n : nat) (input : Reader)
  : list byte * option error * Reader :=
  match input with
  | [] => ([], Some EOF, [])
  | _ => (take n input, None, drop n input)
  end.

(** [io.ReadFull(input, buf)] for a buffer of [n > 0] bytes, as used by
    [binary.Read]: [io.EOF] when nothing could be read, and
    [io.ErrUnexpectedEOF] when the input ends before the buffer is full. *)
Definition ReadFull (n : nat) (input : Reader)
  : list byte * option error * Reader :=
  match input with
  | [] => ([], Some EOF, [])
  | _ =>
      if (length input <? n)%nat
      then (input, Some ErrUnexpectedEOF, [])
      else (take n input, None, drop n input)
  end.

(** ** packet.go *)

(** PacketType defines possible packets types for the BattlEye RCon protocol *)
Definition PacketType : Type := byte.

Definition LoginPacketType : PacketType := x00.
Definition CommandPacketType : PacketType := x01.
Definition ServerMessagePacketType : PacketType := x02.
Definition UnknownPacketType : PacketType := xff.
Definition FragmentationPacketType : PacketType := x00.

(** LoginResponseType defines the possible login results *)
Definition LoginResponseType : Type := byte.

Definition LoginSuccessful : LoginResponseType := x01.
Definition LoginFailed : LoginResponseType := x00.

(** 'B', 'E' *)
Definition packetHeaderMagic : list byte := [x42; x45].
Definition packetHeaderEnd : byte := xff.

(** PacketHeader defines a basic struct used on every packet *)
Record PacketHeader : Type := mkPacketHeader {
  Magic : list byte;
  Checksum : Z;
  End_ : byte
}.

Definition NewPacketHeader (checksum : Z) : PacketHeader :=
  {| Magic := packetHeaderMagic; Checksum := checksum; End_ := packetHeaderEnd |}.

Definition PacketHeader_Encode (ph : PacketHeader) : list byte :=
  Magic ph ++ PutUint32 (Checksum ph) ++ [End_ ph].

(** ParseHeader: reads the magic, the checksum and the end byte in turn.
    The result is the header as filled in so far, the error, and the reader
    after the reads. *)
Definition ParseHeader (input : Reader) : PacketHeader * option error * Reader :=
  let ph := {| Magic := [x00; x00]; Checksum := 0; End_ := x00 |} in
  match ReadFull 2 input with
  | (_, Some err, input) =>
      (ph, errors_Wrap (Some err) "could not read packet header magic", input)
  | (magic, None, input) =>
      let ph := {| Magic := magic; Checksum := 0; End_ := x00 |} in
      if negb (bool_decide (Magic ph = packetHeaderMagic))
      then (ph, Some (errors_New "packet header magic mismatch"), input)
      else
        match ReadFull 4 input with
        | (_, Some err, input) =>
            (ph, errors_Wrap (Some err) "could not read packet header Checksum", input)
        | (sum, None, input) =>
            let ph := {| Magic := magic;
                         Checksum := Uint32 (nth 0 sum x00) (nth 1 sum x00)
                                            (nth 2 sum x00) (nth 3 sum x00);
                         End_ := x00 |} in
            match ReadFull 1 input with
            | (_, Some err, input) =>
                (ph, errors_Wrap (Some err) "could not read packet header end", input)
            | (e, None, input) =>
                let ph := {| Magic := Magic ph; Checksum := Checksum ph;
                             End_ := nth 0 e x00 |} in
                (* at this point [err] is nil *)
                let err : option error := None in
                if negb (bool_decide (End_ ph = packetHeaderEnd))
                then (ph, errors_Wrap err "packet header end mismatch", input)
                else (ph, None, input)
            end
        end
  end.

(** ParsePacketType tries to decode the packet type of the provided input *)
Definition ParsePacketType (input : Reader) : PacketType * option error * Reader :=
  match ReadFull 1 input with
  | (_, Some err, input) =>
      (UnknownPacketType, errors_Wrap (Some err) "could not decode packet type", input)
  | (t, None, input) => (nth 0 t x00, None, input)
  end.

(** ParseSequenceNumber tries to decode the packet sequence number *)
Definition ParseSequenceNumber (input : Reader) : byte * option error * Reader :=
  match ReadFull 1 input with
  | (_, Some err, input) =>
      (x00, errors_Wrap (Some err) "could not parse sequence number", input)
  | (seq, None, input) => (nth 0 seq x00, None, input)
  end.

(** ParseCommand tries to read the rest of the input: one [Read] into a
    buffer of 4098 bytes. *)
Definition ParseCommand (input : Reader) : string * option error * Reader :=
  match Reader_Read 4098 input with
  | (_, Some err, input) =>
      (""%string, errors_Wrap (Some err) "could not parse command", input)
  | (buf, None, input) => (string_of_list_byte buf, None, input)
  end.

(** MakeLoginResponsePacket creates a new LoginResponsePacket *)
Definition MakeLoginResponsePacket (responseType : LoginResponseType) : list byte :=
  let payload := [LoginPacketType; responseType] in
  let header := NewPacketHeader (NewChecksum (xff :: payload)) in
  PacketHeader_Encode header ++ payload.

(** MakeCommandResponsePacket creates a new CommandResponsePacket *)
Definition MakeCommandResponsePacket (seq : byte) (data : list byte) : list byte :=
  let payload := [CommandPacketType; seq] in
  let payload := if (0 <? length data)%nat then payload ++ data else payload in
  let header := NewPacketHeader (NewChecksum (xff :: payload)) in
  PacketHeader_Encode header ++ payload.

(** MakeServerMessagePacket creates a new ServerMessagePacket *)
Definition MakeServerMessagePacket (seq : byte) (data : list byte) : list byte :=
  let payload := [ServerMessagePacketType; seq] in
  let payload := if (0 <? length data)%nat then payload ++ data else payload in
  let header := NewPacketHeader (NewChecksum (xff :: payload)) in
  PacketHeader_Encode header ++ payload.

(** ** github.com/patrickmn/go-cache: a map with an expiry per entry

    Times are [time.Now().UnixNano()], durations are nanoseconds. The
    janitor that deletes expired entries in the background is not modelled:
    every read below already ignores an expired entry. *)

Record Item (V : Type) : Type := mkItem {
  Object : V;
  Expiration : Z
}.
Arguments mkItem {V} _ _.
Arguments Object {V} _.
Arguments Expiration {V} _.

Module cache.

(** [Item.Expired]: an entry with [Expiration = 0] never expires. *)
Definition Expired {V} (now : Z) (item : Item V) : bool :=
  (0 <? Expiration item) && (Expiration item <? now).

(** [c.Set(k, x, d)]; the caches of this package are created with
    [cache.New(cache.DefaultExpiration, _)], so that [d <= 0] stores an
    entry that never expires. *)
Definition Set_ {V} (now : Z) (k : string) (x : V) (d : Z)
    (c : gmap string (Item V)) : gmap string (Item V) :=
  <[k := mkItem x (if 0 <? d then now + d else 0)]> c.

(** [c.Get(k)] *)
Definition Get {V} (now : Z) (k : string) (c : gmap string (Item V)) : option V :=
  match c !! k with
  | Some item => if Expired now item then None else Some (Object item)
  | None => None
  end.

(** [c.Items()]: a copy of the entries that have not expired *)
Definition Items {V} (now : Z) (c : gmap string (Item V)) : gmap string (Item V) :=
  filter (λ kv, Expired now kv.2 = false) c.

(** [c.IncrementInt(k, n)] on a cache of [int]s (64 bits): the new value,
    or [0] and an error when the entry is missing or expired. *)
Definition IncrementInt (now : Z) (k : string) (n : Z)
    (c : gmap string (Item Z)) : Z * option error * gmap string (Item Z) :=
  match c !! k with
  | Some v =>
      if Expired now v
      then (0, Some (errors_New ("Item " +:+ k +:+ " not found")), c)
      else
        let nv := (Object v + n + 2 ^ 63) mod 2 ^ 64 - 2 ^ 63 in
        (nv, None, <[k := mkItem nv (Expiration v)]> c)
  | None => (0, Some (errors_New ("Item " +:+ k +:+ " not found")), c)
  end.

End cache.

(** ** The server engine *)

Definition second : Z := 1000000000.
Definition minute : Z := 60 * second.

Definition keepAliveCheck : Z := 50 * second.
Definition blockIpInterval : Z := 30 * minute.
Definition loginTries : Z := 5.

(** The lines the engine logs, one constructor per [Printf] of the source
    with the values it formats. *)
Inductive LogLine : Type :=
  | LogHeaderError (addr : string) (err : error)
  | LogWrongChecksum (addr : string) (expected got : Z)
  | LogPacketTypeError (addr : string) (err : error)
  | LogUnauthenticated (addr : string) (packetType : PacketType)
  | LogPasswordError (addr : string) (err : error)
  | LogSequenceError (addr : string) (err : error)
  | LogCommandError (addr : string) (err : error)
  | LogAckSequenceError (addr : string) (err : error)
  | LogWrongPassword (addr : string) (password : string) (times : Z)
  | LogIpBlocked (addr : string) (interval : Z)
  | LogAuthenticated (addr : string).

(** What a handler does to the outside: a datagram written to the socket
    ([r.conn.WriteTo(data, to)]) or a line given to a logger. *)
Inductive Output : Type :=
  | WriteTo (data : list byte) (to : string)
  | Logger_Printf (line : LogLine)
  | log_Printf (line : LogLine).

(** RCON is the RCON server implementation. The socket and the logger are
    represented by the [Output]s of the handlers. The command callback is
    code of the host program: it is given by the outputs it produces. What
    a callback does to the engine it is registered with (it may call
    NextSequenceNumber or Broadcast) is outside the model, so the
    properties of the state that handlePacket leaves are stated for an
    engine without a callback wherever the callback could be reached. *)
Record RCON : Type := mkRCON {
  host : string;
  port : Z;
  password : string;
  commandHandler : option (byte → string → string → list Output);
  clients : gmap string (Item string);
  blockedIp : gmap string (Item bool);
  wrongPasswordCounter : gmap string (Item Z);
  ipBanList : list string;
  seqNumber : Z;
  serverMessageAcknowledges : gmap string (Item bool)
}.

Definition set_clients (f : gmap string (Item string) → gmap string (Item string))
    (r : RCON) : RCON :=
  mkRCON (host r) (port r) (password r) (commandHandler r) (f (clients r))
         (blockedIp r) (wrongPasswordCounter r) (ipBanList r) (seqNumber r)
         (serverMessageAcknowledges r).

Definition set_blockedIp (f : gmap string (Item bool) → gmap string (Item bool))
    (r : RCON) : RCON :=
  mkRCON (host r) (port r) (password r) (commandHandler r) (clients r)
         (f (blockedIp r)) (wrongPasswordCounter r) (ipBanList r) (seqNumber r)
         (serverMessageAcknowledges r).

Definition set_wrongPasswordCounter (c : gmap string (Item Z)) (r : RCON) : RCON :=
  mkRCON (host r) (port r) (password r) (commandHandler r) (clients r)
         (blockedIp r) c (ipBanList r) (seqNumber r)
         (serverMessageAcknowledges r).

Definition set_seqNumber (n : Z) (r : RCON) : RCON :=
  mkRCON (host r) (port r) (password r) (commandHandler r) (clients r)
         (blockedIp r) (wrongPasswordCounter r) (ipBanList r) n
         (serverMessageAcknowledges r).

Definition set_serverMessageAcknowledges
    (f : gmap string (Item bool) → gmap string (Item bool)) (r : RCON) : RCON :=
  mkRCON (host r) (port r) (password r) (commandHandler r) (clients r)
         (blockedIp r) (wrongPasswordCounter r) (ipBanList r) (seqNumber r)
         (f (serverMessageAcknowledges r)).

(** NewRCON create a new RCON server with the host, port and password *)
Definition NewRCON (host : string) (port : Z) (password : string) : RCON :=
  mkRCON host port password None ∅ ∅ ∅ [] 0 ∅.

(** SetIPBanList defines the ip ban list to be used to avoid certain ips *)
Definition SetIPBanList (ipBanList : list string) (r : RCON) : RCON :=
  mkRCON (host r) (port r) (password r) (commandHandler r) (clients r)
         (blockedIp r) (wrongPasswordCounter r) ipBanList (seqNumber r)
         (serverMessageAcknowledges r).

(** [strings.Split(addr, ":")[0]]: what precedes the first colon *)
Fixpoint addressWithoutPort (addr : string) : string :=
  match addr with
  | EmptyString => EmptyString
  | String c rest =>
      if Ascii.eqb c ":" then EmptyString else String c (addressWithoutPort rest)
  end.

Definition addressInBanList (r : RCON) (addr : string) : bool :=
  existsb (λ a, bool_decide (a = addr)) (ipBanList r).

(** The loop ranges over the keys of [r.blockedIp.Items()]; its result does
    not depend on the order of the iteration. *)
Definition addressInBlockedList (now : Z) (r : RCON) (addr : string) : bool :=
  existsb (λ ip, bool_decide (ip = addr))
          (map fst (map_to_list (cache.Items now (blockedIp r)))).

(** NextSequenceNumber: [seqNumber] is an [atomic.Uint32]; [Inc] wraps
    around at [2^32]. *)
Definition NextSequenceNumber (r : RCON) : byte * RCON :=
  let number := seqNumber r in
  let newNumber := (seqNumber r + 1) mod uint32_mod in
  let r := set_seqNumber newNumber r in
  let r := if 255 <? newNumber then set_seqNumber 0 r else r in
  (byte_of_Z number, r).

(** SendResponse sends an packet to a client. The write is taken to succeed
    (the source only logs a failed write). *)
Definition SendResponse (to : string) (data : list byte) : list Output :=
  [WriteTo data to].

Definition handleKeepAlive (r : RCON) (addr : string) (seq : byte)
  : RCON * list Output :=
  (r, SendResponse addr (MakeCommandResponsePacket seq [])).

(** handleAuthentication. The block of the wrong password does not return:
    control continues with the statements that follow it. *)
Definition handleAuthentication (now : Z) (r : RCON) (addr : string)
    (password_ : string) : RCON * list Output :=
  let clientIP := addressWithoutPort addr in
  let '(r, out) :=
    if negb (bool_decide (password_ = password r)) then
      let out := SendResponse addr (MakeLoginResponsePacket LoginFailed) in
      let found := cache.Get now clientIP (wrongPasswordCounter r) in
      let r :=
        match found with
        | Some _ => r
        | None =>
            set_wrongPasswordCounter
              (cache.Set_ now clientIP 0 blockIpInterval (wrongPasswordCounter r)) r
        end in
      let '(times, _, counter) :=
        cache.IncrementInt now clientIP 1 (wrongPasswordCounter r) in
      let r := set_wrongPasswordCounter counter r in
      let out := out ++ [Logger_Printf (LogWrongPassword addr password_ times)] in
      if loginTries <=? times then
        (set_blockedIp (cache.Set_ now clientIP true blockIpInterval) r,
         out ++ [Logger_Printf (LogIpBlocked addr blockIpInterval)])
      else (r, out)
    else (r, []) in
  let out := out ++ [log_Printf (LogAuthenticated addr)] in
  let r := set_clients (cache.Set_ now addr addr keepAliveCheck) r in
  (r, out ++ SendResponse addr (MakeLoginResponsePacket LoginSuccessful)).

(** [strconv.Itoa(int(seq))] *)
Definition Itoa (seq : byte) : string := pretty (Z_of_byte seq).

(** handlePacket, for the datagram [data] received from [addr] and handled
    at time [now]. *)
Definition handlePacket (now : Z) (r : RCON) (addr : string) (data : list byte)
  : RCON * list Output :=
  let clientConnected := bool_decide (is_Some (cache.Get now addr (clients r))) in
  let input : Reader := data in
  match ParseHeader input with
  | (_, Some err, _) => (r, [Logger_Printf (LogHeaderError addr err)])
  | (packetHeader, None, input) =>
  (* we skip 6 bytes of packet header *)
  if negb (VerifyChecksum (drop 6 data) (Checksum packetHeader)) then
    (r, [Logger_Printf (LogWrongChecksum addr (NewChecksum (drop 6 data))
                                         (Checksum packetHeader))])
  else
  match ParsePacketType input with
  | (_, Some err, _) => (r, [Logger_Printf (LogPacketTypeError addr err)])
  | (packetType, None, input) =>
  if negb clientConnected && negb (bool_decide (packetType = LoginPacketType)) then
    (r, [Logger_Printf (LogUnauthenticated addr packetType)])
  else if negb clientConnected && bool_decide (packetType = LoginPacketType) then
    match ParseCommand input with
    | (_, Some err, _) => (r, [Logger_Printf (LogPasswordError addr err)])
    | (password_, None, _) => handleAuthentication now r addr password_
    end
  else
  (* Refresh client keep alive *)
  let r := set_clients (cache.Set_ now addr addr keepAliveCheck) r in
  let server_message (_ : unit) : RCON * list Output :=
    if bool_decide (packetType = ServerMessagePacketType) then
      match ParseSequenceNumber input with
      | (_, Some err, _) => (r, [Logger_Printf (LogAckSequenceError addr err)])
      | (seq, None, _) =>
          (set_serverMessageAcknowledges
             (cache.Set_ now (addr +:+ "_" +:+ Itoa seq) true (15 * second)) r, [])
      end
    else (r, []) in
  if bool_decide (packetType = CommandPacketType) then
    match ParseSequenceNumber input with
    | (_, Some err, _) => (r, [Logger_Printf (LogSequenceError addr err)])
    | (seq, None, input) =>
        (* we dont have anything else to read so it must be a keepAlive packet *)
        if (Reader_Len input =? 0)%nat then handleKeepAlive r addr seq
        else
          match ParseCommand input with
          | (_, Some err, _) => (r, [Logger_Printf (LogCommandError addr err)])
          | (command, None, _) =>
              match commandHandler r with
              | Some handler => (r, handler seq command addr)
              | None => server_message ()
              end
          end
    end
  else server_message ()
  end
  end.

(** One turn of the loop of ListenAndServe, for a datagram read at time
    [now]. The datagram is read into a buffer of 4096 bytes, so that
    handlePacket is given its first 4096 bytes at most. The goroutine
    started for the datagram is run to its end before the next datagram is
    read. *)
Definition serve_datagram (now : Z) (r : RCON) (addr : string) (data : list byte)
  : RCON * list Output :=
  let clientIP := addressWithoutPort addr in
  if addressInBanList r clientIP || addressInBlockedList now r clientIP then
    (* we ignore the banned/blocked ip *)
    (r, [])
  else handlePacket now r addr (take 4096 data).

(** The loop over a list of datagrams, each with the time it is handled at
    and its source. *)
Fixpoint serve (r : RCON) (datagrams : list (Z * string * list byte))
  : RCON * list Output :=
  match datagrams with
  | [] => (r, [])
  | (now, addr, data) :: rest =>
      let '(r, out) := serve_datagram now r addr data in
      let '(r, out') := serve r rest in
      (r, out ++ out')
  end.

(** ** Auxiliary definitions for the statements *)

(** The reads that [handlePacket] performs on a command packet, in its
    order: the header, the checksum over [data[6:]], the packet type, the
    sequence number and, when bytes remain, the command. The result is the
    sequence number, with the command unless the packet is a keep-alive. *)
Definition decode_command_packet (data : list byte) : option (byte * option string) :=
  match ParseHeader data with
  | (_, Some _, _) => None
  | (packetHeader, None, input) =>
      if negb (VerifyChecksum (drop 6 data) (Checksum packetHeader)) then None
      else
        match ParsePacketType input with
        | (_, Some _, _) => None
        | (packetType, None, input) =>
            if bool_decide (packetType = CommandPacketType) then
              match ParseSequenceNumber input with
              | (_, Some _, _) => None
              | (seq, None, input) =>
                  if (Reader_Len input =? 0)%nat then Some (seq, None)
                  else
                    match ParseCommand input with
                    | (_, Some _, _) => None
                    | (command, None, _) => Some (seq, Some command)
                    end
              end
            else None
        end
  end.

(** The results of [n] successive calls of [NextSequenceNumber]. *)
Fixpoint sequence_numbers (n : nat) (r : RCON) : list byte :=
  match n with
  | O => []
  | S n =>
      let '(number, r) := NextSequenceNumber r in
      number :: sequence_numbers n r
  end.

(** The datagrams written to the socket among the outputs of a handler. *)
Definition writes (out : list Output) : list (list byte * string) :=
  omap (λ o, match o with WriteTo data to => Some (data, to) | _ => None end) out.

(** A login packet as a client sends it (section 4.2 of the protocol): the
    header, the packet type [0x00] and the password. *)
Definition login_datagram (password_ : string) : list byte :=
  let payload := LoginPacketType :: list_byte_of_string password_ in
  PacketHeader_Encode (NewPacketHeader (NewChecksum (xff :: payload))) ++ payload.

(** The five datagrams of one client that tries a wrong password once a
    second from the same socket. *)
Definition five_wrong_passwords : list (Z * string * list byte) :=
  map (λ i, (i * second, "10.0.0.1:5000"%string, login_datagram "wrong"))
      [0; 1; 2; 3; 4].

(** ** Further functions of the package *)

(** Stringer returns the string representation for the packet *)
Definition Stringer (p : PacketType) : string :=
  if bool_decide (p = LoginPacketType) then
    "LoginPacketType|FragmentationPacketType (0x00)"
  else if bool_decide (p = CommandPacketType) then "CommandPacketType (0x01)"
  else if bool_decide (p = ServerMessagePacketType) then
    "ServerMessagePacketType (0x02)"
  else "UnknownPacketType (0xff)".

(** OnCommand can be used to register a callback *)
Definition OnCommand (handle : byte → string → string → list Output) (r : RCON)
  : RCON :=
  mkRCON (host r) (port r) (password r) (Some handle) (clients r)
         (blockedIp r) (wrongPasswordCounter r) (ipBanList r) (seqNumber r)
         (serverMessageAcknowledges r).

(** Clients return an slice containing all the clients addresses
    authenticated: the objects of [r.clients.Items()], in the order of the
    iteration over the map, which Go leaves open. *)
Definition Clients (now : Z) (r : RCON) : list string :=
  map (λ kv, Object kv.2) (map_to_list (cache.Items now (clients r))).

(** [strings.Split(s, sep)] for a separator of one character. *)
Fixpoint Split (sep : ascii) (s : string) : list string :=
  match s with
  | EmptyString => [EmptyString]
  | String c rest =>
      if Ascii.eqb c sep then EmptyString :: Split sep rest
      else
        match Split sep rest with
        | part :: parts => String c part :: parts
        | [] => [String c EmptyString]
        end
  end.

(** The first statements of Broadcast: the sequence number is read from the
    packet with the three readers, whose errors are dropped. *)
Definition Broadcast_sequence (data : list byte) : byte :=
  let input : Reader := data in
  let '(_, _, input) := ParseHeader input in
  let '(_, _, input) := ParsePacketType input in
  let '(seq, _, _) := ParseSequenceNumber input in
  seq.

(** The test of Broadcast on a key of the acknowledge cache:
    [parts[0] == addr.String() && strconv.Itoa(int(seq)) == parts[1]] for
    [parts := strings.Split(addrAndSeq, "_")]. The result is [None] where
    the source panics: [parts[1]] is evaluated for a key that is [addr]
    itself, without a separator. *)
Definition acknowledge_matches (addrAndSeq addr : string) (seq : byte) : option bool :=
  match Split "_" addrAndSeq with
  | [] => None
  | part0 :: parts =>
      if bool_decide (part0 = addr) then
        match parts with
        | [] => None
        | part1 :: _ => Some (bool_decide (Itoa seq = part1))
        end
      else Some false
  end.

(** Every entry of the clients cache holds the address it is stored under,
    as [r.clients.Set(addr.String(), addr, _)] writes it. *)
Definition clients_keyed (r : RCON) : Prop :=
  ∀ (k : string) (item : Item string), clients r !! k = Some item → Object item = k.

(** What handling a datagram of [addr] at [now] may do to the state [r]:
    the configuration stays, the clients cache stays or gets the entry of
    [addr] set, and the other tables keep their keys. *)
Definition datagram_effect (now : Z) (addr : string) (r r' : RCON) : Prop :=
  (host r' = host r ∧ port r' = port r ∧ password r' = password r
   ∧ commandHandler r' = commandHandler r ∧ ipBanList r' = ipBanList r
   ∧ seqNumber r' = seqNumber r)
  ∧ (clients r' = clients r
     ∨ clients r' = cache.Set_ now addr addr keepAliveCheck (clients r))
  ∧ dom (blockedIp r) ⊆ dom (blockedIp r')
  ∧ dom (wrongPasswordCounter r) ⊆ dom (wrongPasswordCounter r')
  ∧ dom (serverMessageAcknowledges r) ⊆ dom (serverMessageAcknowledges r').

(** The CRC32 that section 4.1 of the specification names (the standard
    CRC32 of the reflected IEEE polynomial [0xedb88320]), written without a
    table: the register starts with all 32 bits set; every byte is added to
    the low end of the register, which is then shifted right eight times,
    the polynomial being added whenever a one is shifted out; the result is
    the complement of the register. The checksum of the source is compared
    with it. *)
Definition reference_shift (register : Z) : Z :=
  Z.lxor (Z.shiftr register 1) (if Z.odd register then 0xedb88320 else 0).

Definition reference_byte (register : Z) (b : byte) : Z :=
  Nat.iter 8 reference_shift (Z.lxor register (Z_of_byte b)).

Definition crc32_reference (data : list byte) : Z :=
  Z.lxor (fold_left reference_byte data 0xffffffff) 0xffffffff.

(** * Properties *)

(** ** Bytes and little-endian words *)

Section Bytes.

Lemma Z_of_byte_range (b : byte) : 0 <= Z_of_byte b < 256.
Proof.
  unfold Z_of_byte. pose proof (Byte.to_N_bounded b) as Hb.
  split; [apply N2Z.is_nonneg | ].
  apply (N2Z.inj_le _ 255) in Hb. simpl in Hb. lia.
Qed.

Lemma Z_of_byte_of_Z (z : Z) : Z_of_byte (byte_of_Z z) = z mod 256.
Proof.
  unfold byte_of_Z, Z_of_byte.
  pose proof (Z.mod_pos_bound z 256 ltac:(lia)) as Hz.
  destruct (Byte.of_N (Z.to_N (z mod 256))) as [b|] eqn:Hb.
  - apply Byte.to_of_N in Hb. rewrite Hb. rewrite Z2N.id; lia.
  - apply Byte.of_N_None_iff in Hb.
    apply N2Z.inj_lt in Hb. rewrite Z2N.id in Hb by lia. simpl in Hb. lia.
Qed.

Lemma byte_of_Z_of_byte (b : byte) : byte_of_Z (Z_of_byte b) = b.
Proof.
  unfold byte_of_Z.
  rewrite Z.mod_small by apply Z_of_byte_range.
  unfold Z_of_byte. rewrite N2Z.id, Byte.of_to_N. reflexivity.
Qed.

(** The byte at bit offset [k] of a word, as a mask. *)
Lemma Z_of_byte_shiftr (v k : Z) :
  Z_of_byte (byte_of_Z (Z.shiftr v k)) = Z.land (Z.shiftr v k) (Z.ones 8).
Proof. rewrite Z_of_byte_of_Z, Z.land_ones by lia. reflexivity. Qed.

Lemma byte_at_spec (v k n : Z) :
  0 <= k → 0 <= n →
  Z.testbit (Z.shiftl (Z.land (Z.shiftr v k) (Z.ones 8)) k) n
  = (k <=? n) && (n <? k + 8) && Z.testbit v n.
Proof.
  intros Hk Hn. destruct (Z.leb_spec k n) as [Hle|Hlt]; simpl.
  - rewrite Z.shiftl_spec, Z.land_spec, Z.shiftr_spec by lia.
    replace (n - k + k) with n by lia.
    destruct (Z.ltb_spec n (k + 8)); simpl.
    + rewrite Z.ones_spec_low by lia. apply andb_true_r.
    + rewrite Z.ones_spec_high by lia. apply andb_false_r.
  - apply Z.shiftl_spec_low. lia.
Qed.

Lemma Uint32_PutUint32 (v : Z) :
  0 <= v < 2 ^ 32 →
  Uint32 (byte_of_Z v) (byte_of_Z (Z.shiftr v 8))
         (byte_of_Z (Z.shiftr v 16)) (byte_of_Z (Z.shiftr v 24)) = v.
Proof.
  intros Hv. unfold Uint32.
  rewrite <- (Z.shiftr_0_r v) at 1.
  rewrite !Z_of_byte_shiftr.
  rewrite <- (Z.shiftl_0_r (Z.land (Z.shiftr v 0) (Z.ones 8))).
  apply Z.bits_inj'. intros n Hn.
  rewrite !Z.lor_spec, !byte_at_spec by lia.
  destruct (Z_lt_dec n 32) as [H32|H32].
  - destruct (Z.testbit v n); [|rewrite !andb_false_r; reflexivity].
    rewrite !andb_true_r.
    destruct (Z.leb_spec 0 n), (Z.ltb_spec n (0 + 8)), (Z.leb_spec 8 n),
      (Z.ltb_spec n (8 + 8)), (Z.leb_spec 16 n), (Z.ltb_spec n (16 + 8)),
      (Z.leb_spec 24 n), (Z.ltb_spec n (24 + 8)); simpl; try reflexivity; lia.
  - assert (Z.testbit v n = false) as ->.
    { destruct (Z.eq_dec v 0) as [->|Hv0]; [apply Z.bits_0|].
      apply Z.bits_above_log2; [lia|].
      assert (Z.log2 v < 32) by (apply Z.log2_lt_pow2; lia). lia. }
    rewrite !andb_false_r. reflexivity.
Qed.

Lemma lxor_range (a b n : Z) :
  0 <= n → 0 <= a < 2 ^ n → 0 <= b < 2 ^ n → 0 <= Z.lxor a b < 2 ^ n.
Proof.
  intros Hn Ha Hb.
  assert (0 <= Z.lxor a b) as Hnn by (apply Z.lxor_nonneg; lia).
  split; [exact Hnn|].
  destruct (Z.eq_dec (Z.lxor a b) 0) as [->|Hx]; [lia|].
  apply Z.log2_lt_pow2; [lia|].
  eapply Z.le_lt_trans; [apply Z.log2_lxor; lia|].
  apply Z.max_lub_lt.
  - destruct (Z.eq_dec a 0) as [->|Ha0].
    + simpl. destruct (Z.eq_dec n 0) as [->|]; [|lia].
      assert (b = 0) as -> by (change (2 ^ 0) with 1 in Hb; lia).
      exfalso. apply Hx. reflexivity.
    + apply Z.log2_lt_pow2; lia.
  - destruct (Z.eq_dec b 0) as [->|Hb0].
    + simpl. destruct (Z.eq_dec n 0) as [->|]; [|lia].
      assert (a = 0) as -> by (change (2 ^ 0) with 1 in Ha; lia).
      exfalso. apply Hx. reflexivity.
    + apply Z.log2_lt_pow2; lia.
Qed.

Lemma shiftr_range (a n k : Z) :
  0 <= k → 0 <= a < 2 ^ n → 0 <= Z.shiftr a k < 2 ^ n.
Proof.
  intros Hk Ha. rewrite Z.shiftr_div_pow2 by lia.
  assert (0 < 2 ^ k) by (apply Z.pow_pos_nonneg; lia).
  split; [apply Z.div_pos; lia|].
  apply Z.le_lt_trans with a; [|lia].
  apply Z.div_le_upper_bound; nia.
Qed.

End Bytes.

(** ** The checksum *)

Section Checksum.

Lemma table_round_range (crc : Z) :
  0 <= crc < 2 ^ 32 → 0 <= crc32.table_round crc32.IEEE crc < 2 ^ 32.
Proof.
  intros H. unfold crc32.table_round.
  destruct (Z.testbit crc 0).
  - apply lxor_range; [lia | apply shiftr_range; lia | vm_compute; split; congruence].
  - apply shiftr_range; lia.
Qed.

Lemma table_entry_range (i : Z) :
  0 <= i < 2 ^ 32 → 0 <= crc32.table_entry crc32.IEEE i < 2 ^ 32.
Proof.
  intros H. unfold crc32.table_entry.
  generalize 8%nat. intros n. induction n as [|n IH]; simpl; [exact H|].
  apply table_round_range, IH.
Qed.

Lemma update_byte_range (crc : Z) (v : byte) :
  0 <= crc < 2 ^ 32 → 0 <= crc32.update_byte crc32.IEEE crc v < 2 ^ 32.
Proof.
  intros H. unfold crc32.update_byte.
  apply lxor_range; [lia | | apply shiftr_range; lia].
  apply table_entry_range.
  pose proof (Z_of_byte_range v). pose proof (Z.mod_pos_bound crc 256 ltac:(lia)).
  assert (0 <= Z.lxor (crc mod 256) (Z_of_byte v) < 2 ^ 8)
    by (apply lxor_range; simpl; lia).
  simpl in *. lia.
Qed.

Lemma not32_range (crc : Z) : 0 <= crc < 2 ^ 32 → 0 <= crc32.not32 crc < 2 ^ 32.
Proof.
  intros H. unfold crc32.not32. apply lxor_range; [lia | exact H | ].
  vm_compute. split; congruence.
Qed.

Lemma fold_update_byte_range (p : list byte) (crc : Z) :
  0 <= crc < 2 ^ 32 →
  0 <= fold_left (crc32.update_byte crc32.IEEE) p crc < 2 ^ 32.
Proof.
  revert crc. induction p as [|v p IH]; intros crc H; simpl; [exact H|].
  apply IH, update_byte_range, H.
Qed.

(** A checksum is a [uint32]. *)
Lemma NewChecksum_range (data : list byte) : 0 <= NewChecksum data < 2 ^ 32.
Proof.
  unfold NewChecksum, crc32.ChecksumIEEE, crc32.update.
  apply not32_range, fold_update_byte_range, not32_range. lia.
Qed.

End Checksum.

(** ** The packet codec *)

Section Codec.

(** Every input of at least seven bytes that starts with the magic is
    read without an error, whatever its seventh byte. *)
Lemma ParseHeader_magic (c0 c1 c2 c3 e : byte) (rest : list byte) :
  ParseHeader (x42 :: x45 :: c0 :: c1 :: c2 :: c3 :: e :: rest)
  = ({| Magic := packetHeaderMagic; Checksum := Uint32 c0 c1 c2 c3; End_ := e |},
     None, rest).
Proof.
  unfold ParseHeader, ReadFull. cbn [length Nat.ltb Nat.leb take drop nth].
  cbn [Magic Checksum End_].
  rewrite (bool_decide_eq_true_2 ([x42; x45] = packetHeaderMagic)) by reflexivity.
  cbn [negb]. destruct (bool_decide (e = packetHeaderEnd)); reflexivity.
Qed.

(** A header that was read without an error took seven bytes. *)
Lemma ParseHeader_ok_drop (data : list byte) (ph : PacketHeader) (input : Reader) :
  ParseHeader data = (ph, None, input) → input = drop 7 data.
Proof.
  destruct data as [|b0 [|b1 [|b2 [|b3 [|b4 [|b5 [|b6 rest]]]]]]];
    unfold ParseHeader, ReadFull;
    cbn [length Nat.ltb Nat.leb take drop nth Magic Checksum End_ errors_Wrap];
    try discriminate;
    destruct (bool_decide (_ = packetHeaderMagic));
    cbn [negb length Nat.ltb Nat.leb take drop nth errors_Wrap]; try discriminate.
  destruct (bool_decide (_ = packetHeaderEnd)); cbn [negb errors_Wrap];
    intros [= _ <-]; reflexivity.
Qed.

Lemma PacketHeader_Encode_bytes (crc : Z) (payload : list byte) :
  PacketHeader_Encode (NewPacketHeader crc) ++ payload
  = x42 :: x45 :: byte_of_Z crc :: byte_of_Z (Z.shiftr crc 8)
        :: byte_of_Z (Z.shiftr crc 16) :: byte_of_Z (Z.shiftr crc 24)
        :: xff :: payload.
Proof. reflexivity. Qed.

Lemma ParseHeader_Encode (crc : Z) (payload : list byte) :
  0 <= crc < 2 ^ 32 →
  ParseHeader (PacketHeader_Encode (NewPacketHeader crc) ++ payload)
  = (NewPacketHeader crc, None, payload).
Proof.
  intros Hcrc. rewrite PacketHeader_Encode_bytes, ParseHeader_magic.
  rewrite Uint32_PutUint32 by exact Hcrc. reflexivity.
Qed.

Lemma ParsePacketType_cons (t : byte) (rest : list byte) :
  ParsePacketType (t :: rest) = (t, None, rest).
Proof. reflexivity. Qed.

Lemma ParseSequenceNumber_cons (s : byte) (rest : list byte) :
  ParseSequenceNumber (s :: rest) = (s, None, rest).
Proof. reflexivity. Qed.

Lemma ParseCommand_nil :
  ParseCommand [] = (""%string, Some (errors_Wrapped EOF "could not parse command"), []).
Proof. reflexivity. Qed.

Lemma ParseCommand_cons (b : byte) (rest : list byte) :
  ParseCommand (b :: rest)
  = (string_of_list_byte (take 4098 (b :: rest)), None, drop 4098 (b :: rest)).
Proof. reflexivity. Qed.

Lemma MakeCommandResponsePacket_bytes (seq : byte) (data : list byte) :
  MakeCommandResponsePacket seq data
  = PacketHeader_Encode
      (NewPacketHeader (NewChecksum (xff :: CommandPacketType :: seq :: data)))
    ++ CommandPacketType :: seq :: data.
Proof.
  unfold MakeCommandResponsePacket. destruct data as [|b data]; reflexivity.
Qed.

Lemma drop_6_Encode (crc : Z) (payload : list byte) :
  drop 6 (PacketHeader_Encode (NewPacketHeader crc) ++ payload) = xff :: payload.
Proof. reflexivity. Qed.

Lemma VerifyChecksum_NewChecksum (data : list byte) :
  VerifyChecksum data (NewChecksum data) = true.
Proof. unfold VerifyChecksum. apply Z.eqb_refl. Qed.

End Codec.

Lemma decode_MakeCommandResponsePacket (s : byte) (c : list byte) :
  decode_command_packet (MakeCommandResponsePacket s c)
  = Some (s, match c with
             | [] => None
             | _ => Some (string_of_list_byte (take 4098 c))
             end).
Proof.
  unfold decode_command_packet.
  rewrite MakeCommandResponsePacket_bytes.
  rewrite ParseHeader_Encode by apply NewChecksum_range.
  rewrite drop_6_Encode. cbn [Checksum NewPacketHeader].
  rewrite VerifyChecksum_NewChecksum. cbn [negb].
  rewrite ParsePacketType_cons.
  rewrite (bool_decide_eq_true_2 (CommandPacketType = CommandPacketType)) by reflexivity.
  rewrite ParseSequenceNumber_cons.
  destruct c as [|b c]; [reflexivity|].
  rewrite ParseCommand_cons. reflexivity.
Qed.

(** ** The checksum and the CRC32 of the specification *)

Section Reference.

Lemma reference_shift_round (crc : Z) :
  reference_shift crc = crc32.table_round crc32.IEEE crc.
Proof.
  unfold reference_shift, crc32.table_round. rewrite Z.bit0_odd.
  destruct (Z.odd crc); [reflexivity | apply Z.lxor_0_r].
Qed.

(** The shift is linear in the bits that are not shifted out. *)
Lemma reference_shift_lxor (a h : Z) :
  Z.testbit h 0 = false →
  reference_shift (Z.lxor a h) = Z.lxor (reference_shift a) (Z.shiftr h 1).
Proof.
  intros Hh. unfold reference_shift.
  rewrite <- !Z.bit0_odd, Z.lxor_spec, Hh, xorb_false_r, Z.shiftr_lxor.
  rewrite !Z.lxor_assoc. f_equal. apply Z.lxor_comm.
Qed.

Lemma iter_reference_shift_lxor (k : nat) (a h : Z) :
  (∀ i, 0 <= i < Z.of_nat k → Z.testbit h i = false) →
  Nat.iter k reference_shift (Z.lxor a h)
  = Z.lxor (Nat.iter k reference_shift a) (Z.shiftr h (Z.of_nat k)).
Proof.
  revert a h. induction k as [|k IH]; intros a h Hh.
  - cbn [Nat.iter]. rewrite Z.shiftr_0_r. reflexivity.
  - rewrite !Nat.iter_succ_r.
    rewrite reference_shift_lxor by (apply Hh; lia).
    rewrite IH.
    + rewrite Z.shiftr_shiftr by lia. do 2 f_equal. lia.
    + intros i Hi. rewrite Z.shiftr_spec by lia. apply Hh. lia.
Qed.

(** A register is its low byte and the rest. *)
Lemma low_byte_and_rest (crc : Z) :
  crc = Z.lxor (crc mod 256) (Z.shiftl (Z.shiftr crc 8) 8).
Proof.
  apply Z.bits_inj'. intros n Hn. rewrite Z.lxor_spec.
  change 256 with (2 ^ 8).
  destruct (Z_lt_dec n 8) as [Hlt|Hge].
  - rewrite Z.mod_pow2_bits_low, Z.shiftl_spec_low by lia.
    rewrite xorb_false_r. reflexivity.
  - rewrite Z.mod_pow2_bits_high, Z.shiftl_spec, Z.shiftr_spec by lia.
    cbn [xorb]. f_equal. lia.
Qed.

(** One step of the table-driven update is eight shifts of the register. *)
Lemma update_byte_reference (crc : Z) (v : byte) :
  crc32.update_byte crc32.IEEE crc v = reference_byte crc v.
Proof.
  unfold crc32.update_byte, reference_byte, crc32.table_entry.
  assert (Z.lxor crc (Z_of_byte v)
          = Z.lxor (Z.lxor (crc mod 256) (Z_of_byte v))
                   (Z.shiftl (Z.shiftr crc 8) 8)) as ->.
  { rewrite (Z.lxor_comm (crc mod 256)), Z.lxor_assoc, <- low_byte_and_rest.
    apply Z.lxor_comm. }
  rewrite (iter_reference_shift_lxor 8).
  - rewrite Z.shiftr_shiftl_l by lia. change (8 - 8) with 0.
    rewrite Z.shiftl_0_r. f_equal.
    clear. generalize (Z.lxor (crc mod 256) (Z_of_byte v)). intros x.
    generalize 8%nat. intros k. induction k as [|k IH]; [reflexivity|].
    rewrite !Nat.iter_succ, IH. symmetry. apply reference_shift_round.
  - intros i Hi. apply Z.shiftl_spec_low. lia.
Qed.

Lemma fold_update_reference (data : list byte) (crc : Z) :
  fold_left (crc32.update_byte crc32.IEEE) data crc
  = fold_left reference_byte data crc.
Proof.
  revert crc. induction data as [|v data IH]; intros crc; [reflexivity|].
  cbn [fold_left]. rewrite update_byte_reference. apply IH.
Qed.

Lemma NewChecksum_reference (data : list byte) :
  NewChecksum data = crc32_reference data.
Proof.
  unfold NewChecksum, crc32.ChecksumIEEE, crc32.update, crc32.not32,
    crc32_reference.
  rewrite fold_update_reference. reflexivity.
Qed.

End Reference.

Section Residue.

Lemma lxor_mod_256 (a b : Z) :
  Z.lxor a b mod 256 = Z.lxor (a mod 256) (b mod 256).
Proof.
  change 256 with (2 ^ 8). apply Z.bits_inj'. intros n Hn.
  rewrite Z.lxor_spec. destruct (Z_lt_dec n 8) as [Hlt|Hge].
  - rewrite !Z.mod_pow2_bits_low by lia. apply Z.lxor_spec.
  - rewrite !Z.mod_pow2_bits_high by lia. reflexivity.
Qed.

Lemma lxor_cancel_middle (a b c : Z) :
  Z.lxor (Z.lxor a b) (Z.lxor b c) = Z.lxor a c.
Proof.
  rewrite Z.lxor_assoc, <- (Z.lxor_assoc b b c), Z.lxor_nilpotent, Z.lxor_0_l.
  reflexivity.
Qed.

(** Feeding the update a byte of the register itself shifts that byte of
    the register out: what is left depends on the rest of the register
    only through a shift. *)
Lemma update_byte_own_byte (K s F k : Z) :
  0 <= k →
  crc32.update_byte crc32.IEEE (Z.lxor K (Z.shiftr s k))
                    (byte_of_Z (Z.shiftr (Z.lxor s F) k))
  = Z.lxor (crc32.update_byte crc32.IEEE K (byte_of_Z (Z.shiftr F k)))
           (Z.shiftr s (k + 8)).
Proof.
  intros Hk. unfold crc32.update_byte. rewrite !Z_of_byte_of_Z.
  rewrite Z.shiftr_lxor, !lxor_mod_256, lxor_cancel_middle.
  rewrite Z.shiftr_lxor, Z.shiftr_shiftr by lia.
  symmetry. apply Z.lxor_assoc.
Qed.

Lemma fold_update_own_checksum (s : Z) :
  0 <= s < 2 ^ 32 →
  fold_left (crc32.update_byte crc32.IEEE) (PutUint32 (crc32.not32 s)) s
  = fold_left (crc32.update_byte crc32.IEEE) (PutUint32 0xffffffff) 0.
Proof.
  intros Hs. unfold PutUint32, crc32.not32. cbn [fold_left].
  rewrite <- (Z.shiftr_0_r (Z.lxor s 4294967295)).
  rewrite <- (Z.shiftr_0_r 4294967295) at 2.
  rewrite <- (Z.lxor_0_l s) at 1. rewrite <- (Z.shiftr_0_r s) at 1.
  rewrite (update_byte_own_byte 0 s 4294967295 0) by lia.
  rewrite (update_byte_own_byte _ s 4294967295 8) by lia.
  rewrite (update_byte_own_byte _ s 4294967295 16) by lia.
  rewrite (update_byte_own_byte _ s 4294967295 24) by lia.
  change (24 + 8) with 32.
  rewrite (Z.shiftr_div_pow2 s 32), Z.div_small, Z.lxor_0_r by lia.
  reflexivity.
Qed.

Lemma NewChecksum_residue (data : list byte) :
  NewChecksum (data ++ PutUint32 (NewChecksum data)) = 0x2144df1c.
Proof.
  unfold NewChecksum, crc32.ChecksumIEEE, crc32.update.
  rewrite fold_left_app.
  rewrite fold_update_own_checksum
    by (apply fold_update_byte_range, not32_range; lia).
  vm_compute. reflexivity.
Qed.

End Residue.

(** C9: the checksum is the CRC32 of the reflected IEEE polynomial
    [0xedb88320]: for every byte string it is the value of the CRC32 of the
    specification, computed bit by bit (whose check value on "123456789" is
    the standard 0xCBF43926), and a byte string followed by its own
    checksum in little-endian order always has the checksum 0x2144DF1C,
    the residue of this CRC32; the checksum of "test" is 3632233996, the
    checksum of the bytes 0xFF, 0x00 followed by "testeeee" is 353074917;
    and [VerifyChecksum D x] is true exactly when [x] is the checksum of
    [D]. *)
Theorem C9_checksum_is_IEEE_crc32 :
  crc32.IEEE = 0xedb88320 ∧
  (∀ D : list byte, NewChecksum D = crc32_reference D) ∧
  crc32_reference (list_byte_of_string "123456789") = 0xcbf43926 ∧
  (∀ D : list byte, NewChecksum (D ++ PutUint32 (NewChecksum D)) = 0x2144df1c) ∧
  NewChecksum (list_byte_of_string "test") = 3632233996 ∧
  NewChecksum (xff :: x00 :: list_byte_of_string "testeeee") = 353074917 ∧
  ∀ (D : list byte) (x : Z), VerifyChecksum D x = bool_decide (x = NewChecksum D).
Proof.
  split; [reflexivity|].
  split; [exact NewChecksum_reference|].
  split; [vm_compute; reflexivity|].
  split; [exact NewChecksum_residue|].
  split; [vm_compute; reflexivity|].
  split; [vm_compute; reflexivity|].
  intros D x. unfold VerifyChecksum.
  destruct (Z.eqb_spec (NewChecksum D) x) as [Heq|Hne].
  - symmetry. apply bool_decide_eq_true_2. congruence.
  - symmetry. apply bool_decide_eq_false_2. congruence.
Qed.

(** C2 (as the code behaves): an input that starts with the magic "BE" and
    a four-byte checksum is read without an error whatever its seventh
    byte [e] is; the header returned carries [e] as its end byte. No error
    is reported for [e <> 0xFF]. *)
Theorem C2_ParseHeader_trailer_not_checked :
  ∀ (c0 c1 c2 c3 e : byte) (rest : list byte),
    ParseHeader (x42 :: x45 :: c0 :: c1 :: c2 :: c3 :: e :: rest)
    = ({| Magic := packetHeaderMagic; Checksum := Uint32 c0 c1 c2 c3; End_ := e |},
       None, rest).
Proof. intros. apply ParseHeader_magic. Qed.

(** An instance: the seventh byte is 0x00 and the header is accepted. *)
Example ParseHeader_trailer_zero :
  ParseHeader [x42; x45; x00; x00; x00; x00; x00]
  = ({| Magic := packetHeaderMagic; Checksum := 0; End_ := x00 |}, None, []).
Proof. vm_compute. reflexivity. Qed.

(** C5 fails for a command of more than 4098 bytes: [ParseCommand] reads
    once into a buffer of 4098 bytes, so a command of 4099 bytes comes back
    without its last byte. *)
Lemma C5_long_command_truncated :
  decode_command_packet (MakeCommandResponsePacket x07 (repeat x41 4099))
  = Some (x07, Some (string_of_list_byte (repeat x41 4098)))
  ∧ decode_command_packet (MakeCommandResponsePacket x07 (repeat x41 4099))
    ≠ Some (x07, Some (string_of_list_byte (repeat x41 4099))).
Proof.
  rewrite decode_MakeCommandResponsePacket. split.
  - vm_compute. reflexivity.
  - intros H. injection H as H.
    apply (f_equal String.length) in H. vm_compute in H. discriminate.
Qed.

(** C5 (amended): for every sequence number [s] and every byte string [c]
    of at most 4098 bytes, the datagram [MakeCommandResponsePacket s c] is
    read back as a header with the magic, the end byte 0xFF and the checksum
    of the bytes from offset 6 on, followed by the packet type 0x01, the
    sequence number [s] and the command [c]; it decodes as a keep-alive of
    sequence [s] when [c] is empty and as the command [c] otherwise. *)
Theorem C5_command_response_round_trip (s : byte) (c : list byte) :
  (length c ≤ 4098)%nat →
  let data := MakeCommandResponsePacket s c in
  ParseHeader data
  = (NewPacketHeader (NewChecksum (drop 6 data)), None, CommandPacketType :: s :: c)
  ∧ VerifyChecksum (drop 6 data) (NewChecksum (xff :: CommandPacketType :: s :: c)) = true
  ∧ decode_command_packet data
    = Some (s, match c with [] => None | _ => Some (string_of_list_byte c) end).
Proof.
  intros Hlen data. subst data.
  rewrite decode_MakeCommandResponsePacket, MakeCommandResponsePacket_bytes.
  rewrite drop_6_Encode.
  rewrite ParseHeader_Encode by apply NewChecksum_range.
  rewrite VerifyChecksum_NewChecksum.
  rewrite take_ge by exact Hlen.
  repeat split.
Qed.

Lemma C5_command_response_round_trip_witness :
  (length (list_byte_of_string "players") ≤ 4098)%nat ∧
  decode_command_packet (MakeCommandResponsePacket x42 (list_byte_of_string "players"))
  = Some (x42, Some "players"%string).
Proof.
  split; [vm_compute; lia|].
  apply (C5_command_response_round_trip x42 (list_byte_of_string "players")).
  vm_compute. lia.
Defined.

(** ** The sequence numbers *)

Section Sequence.

Lemma NextSequenceNumber_small (r : RCON) :
  0 <= seqNumber r <= 255 →
  NextSequenceNumber r
  = (byte_of_Z (seqNumber r), set_seqNumber ((seqNumber r + 1) mod 256) r).
Proof.
  intros Hr. unfold NextSequenceNumber, uint32_mod.
  rewrite (Z.mod_small (seqNumber r + 1) (2 ^ 32)) by lia.
  destruct (Z.ltb_spec 255 (seqNumber r + 1)) as [Hwrap|Hstay].
  - assert (seqNumber r = 255) as -> by lia. reflexivity.
  - rewrite Z.mod_small by lia. reflexivity.
Qed.

Lemma sequence_numbers_from (n : nat) (r : RCON) :
  0 <= seqNumber r <= 255 →
  sequence_numbers n r
  = map (λ i, byte_of_Z ((seqNumber r + Z.of_nat i) mod 256)) (seq 0 n).
Proof.
  revert r. induction n as [|n IH]; intros r Hr; [reflexivity|].
  cbn [sequence_numbers seq map].
  rewrite NextSequenceNumber_small by exact Hr.
  rewrite IH by (cbn [seqNumber set_seqNumber];
                 pose proof (Z.mod_pos_bound (seqNumber r + 1) 256); lia).
  cbn [seqNumber set_seqNumber].
  f_equal.
  - rewrite Z.add_0_r, (Z.mod_small (seqNumber r)) by lia. reflexivity.
  - rewrite <- seq_shift, map_map. apply map_ext. intros i.
    rewrite Zplus_mod_idemp_l. f_equal. f_equal. lia.
Qed.

End Sequence.

(** C3 fails: after 255 the allocator returns 0 again, and then 1. *)
Lemma C3_zero_again_after_wrap :
  drop 255 (sequence_numbers 258 (NewRCON "0.0.0.0" 2301 "secret"))
  = [xff; x00; x01].
Proof. vm_compute. reflexivity. Qed.

(** C3 (amended): the allocator returns the value of the register before
    the increment, truncated to eight bits, and sets the register to 0 when
    the incremented value exceeds 255; starting from the initial register 0,
    successive calls yield 0, 1, ..., 255, 0, 1, ...: call number [i]
    (counting from 0) returns [i mod 256]. *)
Theorem C3_sequence_numbers_cyclic :
  (∀ r : RCON,
     fst (NextSequenceNumber r) = byte_of_Z (seqNumber r) ∧
     seqNumber (snd (NextSequenceNumber r))
     = if 255 <? (seqNumber r + 1) mod 2 ^ 32 then 0
       else (seqNumber r + 1) mod 2 ^ 32) ∧
  ∀ (host password_ : string) (port : Z) (n : nat),
    sequence_numbers n (NewRCON host port password_)
    = map (λ i, byte_of_Z (Z.of_nat i mod 256)) (seq 0 n).
Proof.
  split.
  - intros r. unfold NextSequenceNumber, uint32_mod.
    destruct (255 <? (seqNumber r + 1) mod 2 ^ 32); split; reflexivity.
  - intros host password_ port n.
    rewrite sequence_numbers_from by (cbn; lia). reflexivity.
Qed.

(** ** The engine *)

Section Engine.

Lemma addressInBanList_In (r : RCON) (addr : string) :
  In addr (ipBanList r) → addressInBanList r addr = true.
Proof.
  intros Hin. unfold addressInBanList. apply existsb_exists.
  exists addr. split; [exact Hin | apply bool_decide_eq_true_2; reflexivity].
Qed.

Lemma addressInBlockedList_Get (now : Z) (r : RCON) (addr : string) :
  addressInBlockedList now r addr = true
  ↔ is_Some (cache.Get now addr (blockedIp r)).
Proof.
  unfold addressInBlockedList, cache.Get, cache.Items.
  rewrite existsb_exists. split.
  - intros (ip & Hin & Heq). apply bool_decide_eq_true_1 in Heq. subst ip.
    apply in_map_iff in Hin. destruct Hin as ([k item] & Hk & Hin).
    simpl in Hk. subst k.
    apply list_elem_of_In, elem_of_map_to_list in Hin.
    apply map_lookup_filter_Some in Hin. destruct Hin as [Hlook Hlive].
    simpl in Hlive. rewrite Hlook, Hlive. eauto.
  - intros [x Hx]. destruct (blockedIp r !! addr) as [item|] eqn:Hlook;
      [|discriminate].
    destruct (cache.Expired now item) eqn:Hlive; [discriminate|].
    exists addr. split; [|apply bool_decide_eq_true_2; reflexivity].
    apply in_map_iff. exists (addr, item). split; [reflexivity|].
    apply list_elem_of_In, elem_of_map_to_list, map_lookup_filter_Some.
    split; [exact Hlook | exact Hlive].
Qed.

(** What [handlePacket] does for a peer without a session. *)
Lemma handlePacket_no_session (now : Z) (r : RCON) (addr : string)
    (data : list byte) :
  cache.Get now addr (clients r) = None →
  handlePacket now r addr data
  = match ParseHeader data with
    | (_, Some err, _) => (r, [Logger_Printf (LogHeaderError addr err)])
    | (packetHeader, None, input) =>
        if negb (VerifyChecksum (drop 6 data) (Checksum packetHeader)) then
          (r, [Logger_Printf (LogWrongChecksum addr (NewChecksum (drop 6 data))
                                               (Checksum packetHeader))])
        else
          match ParsePacketType input with
          | (_, Some err, _) => (r, [Logger_Printf (LogPacketTypeError addr err)])
          | (packetType, None, input) =>
              if negb (bool_decide (packetType = LoginPacketType)) then
                (r, [Logger_Printf (LogUnauthenticated addr packetType)])
              else
                match ParseCommand input with
                | (_, Some err, _) => (r, [Logger_Printf (LogPasswordError addr err)])
                | (password_, None, _) => handleAuthentication now r addr password_
                end
          end
    end.
Proof.
  intros Hget. unfold handlePacket. rewrite Hget.
  rewrite bool_decide_eq_false_2 by (intros [x Hx]; discriminate).
  destruct (ParseHeader data) as [[packetHeader [err|]] input]; [reflexivity|].
  destruct (negb (VerifyChecksum _ _)); [reflexivity|].
  destruct (ParsePacketType input) as [[packetType [err|]] input']; [reflexivity|].
  destruct (bool_decide (packetType = LoginPacketType)); reflexivity.
Qed.

(** The packet type that is read after the header is the byte at
    offset 7 of the datagram. *)
Lemma ParsePacketType_offset_7 (data : list byte) (ph : PacketHeader)
    (input input' : Reader) (packetType : PacketType) :
  ParseHeader data = (ph, None, input) →
  ParsePacketType input = (packetType, None, input') →
  data !! 7%nat = Some packetType.
Proof.
  intros Hh Ht. apply ParseHeader_ok_drop in Hh. subst input.
  pose proof (lookup_drop data 7 0) as Hlook. cbn [Nat.add] in Hlook.
  unfold PacketType in *. rewrite <- Hlook.
  destruct (drop 7 data) as [|t rest]; [discriminate|].
  rewrite ParsePacketType_cons in Ht. injection Ht as -> _. reflexivity.
Qed.

(** The session that [handleAuthentication] creates whatever the
    password is. *)
Lemma handleAuthentication_session (now : Z) (r : RCON) (addr password_ : string) :
  clients (fst (handleAuthentication now r addr password_)) !! addr
  = Some (mkItem addr (now + keepAliveCheck)).
Proof.
  unfold handleAuthentication.
  destruct (negb (bool_decide (password_ = password r))).
  - destruct (cache.Get now (addressWithoutPort addr) (wrongPasswordCounter r));
      match goal with
      | |- context [cache.IncrementInt ?n ?k ?d ?c] =>
          destruct (cache.IncrementInt n k d c) as [[times err] counter]
      end;
      destruct (loginTries <=? times); cbn; apply lookup_insert_eq.
  - cbn. apply lookup_insert_eq.
Qed.

(** With a wrong password and a live counter that already holds four
failures or more, the handler puts the IP in the block table. *)
Lemma handleAuthentication_blocks_at_threshold
    (now : Z) (r : RCON) (addr password_ : string) (n : Z) :
  password_ ≠ password r →
  cache.Get now (addressWithoutPort addr) (wrongPasswordCounter r) = Some n →
  4 <= n < 2 ^ 63 - 1 →
  cache.Get now (addressWithoutPort addr)
            (blockedIp (fst (handleAuthentication now r addr password_)))
  = Some true.
Proof.
  intros Hpw Hget Hn. unfold handleAuthentication.
  rewrite (bool_decide_eq_false_2 _ Hpw). cbn [negb]. rewrite Hget.
  unfold cache.IncrementInt. unfold cache.Get in Hget.
  destruct (wrongPasswordCounter r !! addressWithoutPort addr) as [item|];
    [|discriminate].
  destruct (cache.Expired now item); [discriminate|].
  injection Hget as ->.
  replace ((n + 1 + 2 ^ 63) mod 2 ^ 64 - 2 ^ 63) with (n + 1)
    by (rewrite Z.mod_small; lia).
  unfold loginTries. destruct (Z.leb_spec 5 (n + 1)) as [_|Hlt]; [|lia].
  cbn [fst set_clients set_blockedIp blockedIp].
  unfold cache.Get, cache.Set_. rewrite lookup_insert_eq.
  unfold cache.Expired. cbn [Expiration Object].
  replace (0 <? blockIpInterval) with true by reflexivity.
  destruct (Z.ltb_spec (now + blockIpInterval) now) as [Hlt|_].
  - assert (0 < blockIpInterval) by reflexivity. lia.
  - rewrite andb_false_r. reflexivity.
Qed.

End Engine.

(** C6: for a peer without a session, a datagram whose packet type (the
    byte at offset 7) is not the login type leaves the whole state of the
    engine as it was and writes nothing to the socket. *)
Theorem C6_no_session_non_login_ignored
    (now : Z) (r : RCON) (addr : string) (data : list byte) :
  cache.Get now addr (clients r) = None →
  data !! 7%nat ≠ Some LoginPacketType →
  fst (handlePacket now r addr data) = r
  ∧ writes (snd (handlePacket now r addr data)) = [].
Proof.
  intros Hget Htype. rewrite handlePacket_no_session by exact Hget.
  destruct (ParseHeader data) as [[packetHeader [err|]] input] eqn:Hh;
    [split; reflexivity|].
  destruct (negb (VerifyChecksum _ _)); [split; reflexivity|].
  destruct (ParsePacketType input) as [[packetType [err|]] input'] eqn:Ht;
    [split; reflexivity|].
  pose proof (ParsePacketType_offset_7 _ _ _ _ _ Hh Ht) as H7.
  rewrite bool_decide_eq_false_2 by (intros ->; contradiction).
  split; reflexivity.
Qed.

Lemma C6_no_session_non_login_ignored_witness :
  fst (handlePacket 0 (NewRCON "0.0.0.0" 2301 "secret") "10.0.0.1:5000"
                    (MakeCommandResponsePacket x42 []))
  = NewRCON "0.0.0.0" 2301 "secret"
  ∧ writes (snd (handlePacket 0 (NewRCON "0.0.0.0" 2301 "secret") "10.0.0.1:5000"
                              (MakeCommandResponsePacket x42 []))) = [].
Proof.
  apply C6_no_session_non_login_ignored.
  - vm_compute. reflexivity.
  - vm_compute. discriminate.
Defined.

(** The filter of the loop: a datagram is discarded, with no change of
    state and no output, when the part of its source address before the
    first colon is in the ban list or has a live entry in the block table. *)
Lemma filtered_datagram_discarded
    (now : Z) (r : RCON) (addr : string) (data : list byte) :
  In (addressWithoutPort addr) (ipBanList r)
  ∨ is_Some (cache.Get now (addressWithoutPort addr) (blockedIp r)) →
  serve_datagram now r addr data = (r, []).
Proof.
  intros [Hban|Hblock]; unfold serve_datagram.
  - rewrite addressInBanList_In by exact Hban. reflexivity.
  - apply addressInBlockedList_Get in Hblock. rewrite Hblock.
    rewrite orb_true_r. reflexivity.
Qed.

(** C7 (as the code behaves): a datagram from a banned IPv6 source is not
    discarded. The address of the peer with the IP [::1] is "[::1]:5000";
    addressWithoutPort cuts it at the first colon and gives "[", which is
    not the banned IP, so the loop hands the datagram to handlePacket: the
    login is answered and a session is created. *)
Theorem C7_banned_ipv6_source_answered :
  let r := SetIPBanList ["::1"%string] (NewRCON "" 2301 "secret") in
  let addr := "[::1]:5000"%string in
  let result := serve_datagram 0 r addr (login_datagram "secret") in
  addressWithoutPort addr = "["%string
  ∧ writes (snd result) = [(MakeLoginResponsePacket LoginSuccessful, addr)]
  ∧ cache.Get 0 addr (clients (fst result)) = Some addr
  ∧ fst result ≠ r.
Proof.
  split; [reflexivity|].
  split; [vm_compute; reflexivity|].
  split; [vm_compute; reflexivity|].
  intros H. apply (f_equal (λ r, cache.Get 0 "[::1]:5000" (clients r))) in H.
  vm_compute in H. discriminate.
Qed.

(** C8: when a peer with a session sends a valid command packet with the
    sequence number [s] and nothing after it, the engine answers that peer
    with [MakeCommandResponsePacket s []] and sets the peer's session entry
    to expire 50 seconds after the time of handling. *)
Theorem C8_keep_alive_echo
    (now : Z) (r : RCON) (addr : string) (data : list byte)
    (ph : PacketHeader) (s : byte) :
  is_Some (cache.Get now addr (clients r)) →
  ParseHeader data = (ph, None, [CommandPacketType; s]) →
  VerifyChecksum (drop 6 data) (Checksum ph) = true →
  handlePacket now r addr data
  = (set_clients (cache.Set_ now addr addr keepAliveCheck) r,
     [WriteTo (MakeCommandResponsePacket s []) addr])
  ∧ clients (fst (handlePacket now r addr data)) !! addr
    = Some (mkItem addr (now + 50 * second)).
Proof.
  intros Hget Hh Hsum.
  assert (handlePacket now r addr data
          = (set_clients (cache.Set_ now addr addr keepAliveCheck) r,
             [WriteTo (MakeCommandResponsePacket s []) addr])) as Heq.
  { unfold handlePacket. rewrite Hh, Hsum.
    rewrite (bool_decide_eq_true_2 _ Hget). cbn [negb andb].
    rewrite ParsePacketType_cons.
    rewrite (bool_decide_eq_true_2 (CommandPacketType = CommandPacketType))
      by reflexivity.
    rewrite ParseSequenceNumber_cons. reflexivity. }
  split; [exact Heq|].
  rewrite Heq. cbn [fst set_clients clients]. unfold cache.Set_.
  rewrite lookup_insert_eq. reflexivity.
Qed.

Lemma C8_keep_alive_echo_witness :
  handlePacket second
    (set_clients (cache.Set_ 0 "10.0.0.1:5000" "10.0.0.1:5000"%string keepAliveCheck)
                 (NewRCON "0.0.0.0" 2301 "secret"))
    "10.0.0.1:5000" (MakeCommandResponsePacket x42 [])
  = (set_clients (cache.Set_ second "10.0.0.1:5000" "10.0.0.1:5000"%string keepAliveCheck)
       (set_clients (cache.Set_ 0 "10.0.0.1:5000" "10.0.0.1:5000"%string keepAliveCheck)
                    (NewRCON "0.0.0.0" 2301 "secret")),
     [WriteTo (MakeCommandResponsePacket x42 []) "10.0.0.1:5000"]).
Proof.
  apply (C8_keep_alive_echo second _ "10.0.0.1:5000"
           (MakeCommandResponsePacket x42 [])
           (NewPacketHeader (NewChecksum [xff; x01; x42])) x42).
  - vm_compute. eexists. reflexivity.
  - vm_compute. reflexivity.
  - vm_compute. reflexivity.
Defined.

(** C10: when a peer without a session sends a login packet with a valid
    header and checksum and nothing after the packet type, the engine logs
    the error of reading the password and does nothing else: no response is
    written, and the sessions, the wrong-password counters and the block
    table stay as they were. *)
Theorem C10_empty_password_dropped
    (now : Z) (r : RCON) (addr : string) (data : list byte) (ph : PacketHeader) :
  cache.Get now addr (clients r) = None →
  ParseHeader data = (ph, None, [LoginPacketType]) →
  VerifyChecksum (drop 6 data) (Checksum ph) = true →
  handlePacket now r addr data
  = (r, [Logger_Printf
           (LogPasswordError addr (errors_Wrapped EOF "could not parse command"))]).
Proof.
  intros Hget Hh Hsum. rewrite handlePacket_no_session by exact Hget.
  rewrite Hh, Hsum. cbn [negb]. rewrite ParsePacketType_cons.
  rewrite (bool_decide_eq_true_2 (LoginPacketType = LoginPacketType)) by reflexivity.
  cbn [negb]. reflexivity.
Qed.

Lemma C10_empty_password_dropped_witness :
  handlePacket 0 (NewRCON "0.0.0.0" 2301 "secret") "10.0.0.1:5000" (login_datagram "")
  = (NewRCON "0.0.0.0" 2301 "secret",
     [Logger_Printf (LogPasswordError "10.0.0.1:5000"
                       (errors_Wrapped EOF "could not parse command"))]).
Proof.
  apply (C10_empty_password_dropped 0 _ "10.0.0.1:5000" (login_datagram "")
           (NewPacketHeader (NewChecksum [xff; x00]))).
  - vm_compute. reflexivity.
  - vm_compute. reflexivity.
  - vm_compute. reflexivity.
Defined.

(** C1 (as the code behaves): a login packet with the wrong password, from
    a peer without a session, is answered with the login-failed packet and
    then, because the handler does not return after the wrong-password
    block, with the login-successful packet; a session is created for the
    peer. *)
Theorem C1_wrong_password_creates_session :
  let r := NewRCON "0.0.0.0" 2301 "secret" in
  let addr := "10.0.0.1:5000"%string in
  let result := handlePacket 0 r addr (login_datagram "wrong") in
  writes (snd result)
  = [(MakeLoginResponsePacket LoginFailed, addr);
     (MakeLoginResponsePacket LoginSuccessful, addr)]
  ∧ cache.Get 0 addr (clients (fst result)) = Some addr
  ∧ clients (fst result) ≠ clients r.
Proof.
  split; [vm_compute; reflexivity|].
  split; [vm_compute; reflexivity|].
  intros H. apply (f_equal (λ c, cache.Get 0 "10.0.0.1:5000" c)) in H.
  vm_compute in H. discriminate.
Qed.

(** C4 (as the code behaves): after five login packets with a wrong
    password from one peer address, the source IP is not in the block
    table. The first packet creates a session for the peer, so the four
    that follow are handled as packets of an authenticated peer and do not
    reach the counter, which stays at 1. *)
Theorem C4_same_peer_not_blocked :
  let r := fst (serve (NewRCON "0.0.0.0" 2301 "x") five_wrong_passwords) in
  addressInBlockedList (4 * second) r "10.0.0.1" = false
  ∧ cache.Get (4 * second) "10.0.0.1" (blockedIp r) = None
  ∧ cache.Get (4 * second) "10.0.0.1" (wrongPasswordCounter r) = Some 1.
Proof. vm_compute. repeat split. Qed.

(** The counter and the threshold do block the IP when every wrong
    password comes from a peer address without a session: here five
    source ports of one IP. *)
Example five_ports_blocked :
  let datagrams :=
    map (λ p, (0, ("10.0.0.1:" +:+ p)%string, login_datagram "wrong"))
        ["5001"; "5002"; "5003"; "5004"; "5005"]%string in
  let r := fst (serve (NewRCON "0.0.0.0" 2301 "x") datagrams) in
  addressInBlockedList 0 r "10.0.0.1" = true
  ∧ cache.Get 0 "10.0.0.1" (wrongPasswordCounter r) = Some 5.
Proof. vm_compute. split; reflexivity. Qed.

(** * Further properties of the code *)

(** ** packet.go: the readers *)

(** ParseHeader, the error it returns for every input: the magic cannot be
    read from fewer than two bytes; two bytes that are not "BE" are a
    mismatch; the checksum cannot be read from fewer than four further
    bytes; the end byte is missing after exactly six bytes; every longer
    input that starts with "BE" is read without an error. *)
Theorem ParseHeader_error_cases (data : list byte) :
  snd (fst (ParseHeader data))
  = if (length data <? 2)%nat then
      Some (errors_Wrapped (if (length data =? 0)%nat then EOF else ErrUnexpectedEOF)
                           "could not read packet header magic")
    else if negb (bool_decide (take 2 data = packetHeaderMagic)) then
      Some (errors_New "packet header magic mismatch")
    else if (length data <? 6)%nat then
      Some (errors_Wrapped (if (length data =? 2)%nat then EOF else ErrUnexpectedEOF)
                           "could not read packet header Checksum")
    else if (length data =? 6)%nat then
      Some (errors_Wrapped EOF "could not read packet header end")
    else None.
Proof.
  destruct data as [|b0 [|b1 [|b2 [|b3 [|b4 [|b5 [|b6 rest]]]]]]];
    unfold ParseHeader, ReadFull;
    cbn [length Nat.ltb Nat.leb Nat.eqb take drop nth Magic Checksum End_
         errors_Wrap fst snd];
    try reflexivity;
    destruct (bool_decide (_ = packetHeaderMagic));
    cbn [negb length Nat.ltb Nat.leb Nat.eqb take drop nth errors_Wrap fst snd];
    try reflexivity.
  destruct (bool_decide (_ = packetHeaderEnd)); reflexivity.
Qed.

(** NewPacketHeader, Encode and ParseHeader: a header encoded in front of a
    payload takes seven bytes and is read back as the same header, leaving
    the payload in the reader. *)
Theorem header_round_trip (checksum : Z) (payload : list byte) :
  0 <= checksum < 2 ^ 32 →
  length (PacketHeader_Encode (NewPacketHeader checksum)) = 7%nat
  ∧ ParseHeader (PacketHeader_Encode (NewPacketHeader checksum) ++ payload)
    = (NewPacketHeader checksum, None, payload).
Proof.
  intros Hc. split; [reflexivity|]. apply ParseHeader_Encode, Hc.
Qed.

Lemma header_round_trip_witness :
  ParseHeader (PacketHeader_Encode (NewPacketHeader 100) ++ [x01; x02])
  = (NewPacketHeader 100, None, [x01; x02]).
Proof. apply (header_round_trip 100 [x01; x02]). lia. Defined.

(** ParsePacketType and ParseSequenceNumber take the first byte of the
    input; on an empty input they return the unknown packet type 0xFF,
    respectively the sequence number 0, with the end-of-input error. *)
Theorem ParsePacketType_ParseSequenceNumber_cases (input : Reader) :
  ParsePacketType input
  = match input with
    | [] => (UnknownPacketType,
             Some (errors_Wrapped EOF "could not decode packet type"), [])
    | t :: rest => (t, None, rest)
    end
  ∧ ParseSequenceNumber input
    = match input with
      | [] => (x00, Some (errors_Wrapped EOF "could not parse sequence number"), [])
      | seq :: rest => (seq, None, rest)
      end.
Proof. destruct input; split; reflexivity. Qed.

Lemma length_string_of_list_byte (l : list byte) :
  String.length (string_of_list_byte l) = length l.
Proof. induction l as [|x l IH]; [reflexivity|]. cbn. f_equal. exact IH. Qed.

(** ParseCommand on an input that is not empty returns no error, at most
    4098 bytes, and loses nothing: the command followed by what is left in
    the reader is the input. *)
Theorem ParseCommand_splits_input (input : Reader) :
  input ≠ [] →
  snd (fst (ParseCommand input)) = None
  ∧ (String.length (fst (fst (ParseCommand input))) ≤ 4098)%nat
  ∧ list_byte_of_string (fst (fst (ParseCommand input))) ++ snd (ParseCommand input)
    = input.
Proof.
  intros Hne. destruct input as [|b rest]; [contradiction|].
  rewrite ParseCommand_cons. cbn [fst snd].
  split; [reflexivity|].
  rewrite list_byte_of_string_of_list_byte, length_string_of_list_byte.
  split; [|apply take_drop].
  rewrite length_take. lia.
Qed.

Lemma ParseCommand_splits_input_witness :
  snd (fst (ParseCommand (list_byte_of_string "players"))) = None
  ∧ (String.length (fst (fst (ParseCommand (list_byte_of_string "players")))) ≤ 4098)%nat
  ∧ list_byte_of_string (fst (fst (ParseCommand (list_byte_of_string "players"))))
      ++ snd (ParseCommand (list_byte_of_string "players"))
    = list_byte_of_string "players".
Proof.
  apply (ParseCommand_splits_input (list_byte_of_string "players")).
  vm_compute. discriminate.
Defined.

(** ** packet.go: the builders *)

Lemma MakeServerMessagePacket_bytes (seq : byte) (data : list byte) :
  MakeServerMessagePacket seq data
  = PacketHeader_Encode
      (NewPacketHeader (NewChecksum (xff :: ServerMessagePacketType :: seq :: data)))
    ++ ServerMessagePacketType :: seq :: data.
Proof.
  unfold MakeServerMessagePacket. destruct data as [|b data]; reflexivity.
Qed.

(** MakeLoginResponsePacket: the packet has nine bytes; its header is read
    back without an error, the checksum of the header verifies over the
    bytes from offset 6 on, and the header is followed by the login packet
    type and the response byte. *)
Theorem login_response_round_trip (responseType : LoginResponseType) :
  let data := MakeLoginResponsePacket responseType in
  length data = 9%nat
  ∧ ParseHeader data
    = (NewPacketHeader (NewChecksum (drop 6 data)), None,
       [LoginPacketType; responseType])
  ∧ VerifyChecksum (drop 6 data) (Checksum (fst (fst (ParseHeader data)))) = true.
Proof.
  intros data. subst data. unfold MakeLoginResponsePacket.
  rewrite drop_6_Encode, ParseHeader_Encode by apply NewChecksum_range.
  cbn [fst Checksum NewPacketHeader].
  rewrite VerifyChecksum_NewChecksum. repeat split.
Qed.

(** MakeServerMessagePacket: the packet has nine bytes more than the
    payload; its header is read back without an error, the checksum of the
    header verifies over the bytes from offset 6 on, and the readers then
    give the server-message packet type and the sequence number, and leave
    the payload. *)
Theorem server_message_round_trip (s : byte) (c : list byte) :
  let data := MakeServerMessagePacket s c in
  length data = (9 + length c)%nat
  ∧ ParseHeader data
    = (NewPacketHeader (NewChecksum (drop 6 data)), None,
       ServerMessagePacketType :: s :: c)
  ∧ VerifyChecksum (drop 6 data) (Checksum (fst (fst (ParseHeader data)))) = true
  ∧ ParsePacketType (ServerMessagePacketType :: s :: c)
    = (ServerMessagePacketType, None, s :: c)
  ∧ ParseSequenceNumber (s :: c) = (s, None, c).
Proof.
  intros data. subst data. rewrite MakeServerMessagePacket_bytes.
  rewrite drop_6_Encode, ParseHeader_Encode by apply NewChecksum_range.
  cbn [fst Checksum NewPacketHeader].
  rewrite VerifyChecksum_NewChecksum. repeat split.
Qed.

(** The three builders differ in the packet type only through the type
    byte and the checksum: none of them produces a datagram that another
    one produces. *)
Theorem builders_disjoint (s s' : byte) (c c' : list byte) (rt : LoginResponseType) :
  MakeCommandResponsePacket s c ≠ MakeServerMessagePacket s' c'
  ∧ MakeCommandResponsePacket s c ≠ MakeLoginResponsePacket rt
  ∧ MakeServerMessagePacket s c ≠ MakeLoginResponsePacket rt.
Proof.
  rewrite MakeCommandResponsePacket_bytes, !MakeServerMessagePacket_bytes.
  unfold MakeLoginResponsePacket.
  rewrite !PacketHeader_Encode_bytes.
  repeat split; intros H; apply (f_equal (λ l, nth 7 l x00)) in H;
    cbn [nth] in H; discriminate H.
Qed.

(** ** The sequence number that Broadcast reads *)

(** Broadcast takes the sequence number from the byte at offset 8 of the
    packet when the packet starts with the magic "BE", and from the byte at
    offset 3 when it does not (the header reader stops after the two bytes
    of a wrong magic and the next readers go on from there); a byte that is
    missing counts as 0. *)
Theorem Broadcast_sequence_offset (data : list byte) :
  Broadcast_sequence data
  = if bool_decide (take 2 data = packetHeaderMagic) then nth 8 data x00
    else nth 3 data x00.
Proof.
  destruct data as [|b0 [|b1 [|b2 [|b3 [|b4 [|b5 [|b6 [|b7 [|b8 rest]]]]]]]]];
    unfold Broadcast_sequence, ParseHeader, ParsePacketType,
      ParseSequenceNumber, ReadFull;
    cbn [length Nat.ltb Nat.leb take drop nth Magic Checksum End_ errors_Wrap];
    try reflexivity;
    destruct (bool_decide (_ = packetHeaderMagic));
    cbn [negb length Nat.ltb Nat.leb take drop nth errors_Wrap];
    try reflexivity;
    destruct (bool_decide (_ = packetHeaderEnd)); reflexivity.
Qed.

(** For a packet built by MakeServerMessagePacket, Broadcast reads the
    sequence number the packet was built with. *)
Theorem Broadcast_sequence_of_server_message (s : byte) (c : list byte) :
  Broadcast_sequence (MakeServerMessagePacket s c) = s.
Proof.
  rewrite MakeServerMessagePacket_bytes, PacketHeader_Encode_bytes.
  unfold Broadcast_sequence. rewrite ParseHeader_magic.
  reflexivity.
Qed.

(** ** The engine: the paths of handlePacket *)

Section Paths.

(** An entry set at [now] with a positive duration is live at [now]. *)
Lemma Expired_Set_now {V} (now d : Z) (x : V) :
  cache.Expired now (mkItem x (if 0 <? d then now + d else 0)) = false.
Proof.
  unfold cache.Expired. cbn [Expiration].
  destruct (Z.ltb_spec 0 d) as [Hd|Hd].
  - destruct (Z.ltb_spec (now + d) now); [lia|]. apply andb_false_r.
  - reflexivity.
Qed.

(** An entry that expires at [e > 0] is live up to [e] and expired after. *)
Lemma Expired_at {V} (now e : Z) (x : V) :
  0 < e → cache.Expired now (mkItem x e) = (e <? now).
Proof.
  intros He. unfold cache.Expired. cbn [Expiration].
  destruct (Z.ltb_spec 0 e); [reflexivity | lia].
Qed.

Lemma login_datagram_bytes (password_ : string) :
  login_datagram password_
  = PacketHeader_Encode
      (NewPacketHeader
         (NewChecksum (xff :: LoginPacketType :: list_byte_of_string password_)))
    ++ LoginPacketType :: list_byte_of_string password_.
Proof. reflexivity. Qed.

Lemma list_byte_of_string_nil (s : string) :
  list_byte_of_string s = [] → s = ""%string.
Proof.
  intros H. rewrite <- (string_of_list_byte_of_string s), H. reflexivity.
Qed.

End Paths.

(** A datagram whose header cannot be read, or whose checksum does not
    verify, changes nothing and is not answered, whether the peer has a
    session or not. *)
Theorem malformed_datagram_dropped
    (now : Z) (r : RCON) (addr : string) (data : list byte) :
  snd (fst (ParseHeader data)) ≠ None
  ∨ VerifyChecksum (drop 6 data) (Checksum (fst (fst (ParseHeader data)))) = false →
  fst (handlePacket now r addr data) = r
  ∧ writes (snd (handlePacket now r addr data)) = [].
Proof.
  intros H. unfold handlePacket.
  destruct (ParseHeader data) as [[packetHeader [err|]] input];
    [split; reflexivity|].
  cbn [fst snd] in H. destruct H as [H|H]; [contradiction|].
  rewrite H. split; reflexivity.
Qed.

Lemma malformed_datagram_dropped_witness :
  fst (handlePacket 0 (NewRCON "0.0.0.0" 2301 "secret") "10.0.0.1:5000"
         [x42; x45; x00; x00; x00; x00; xff; x00; x73])
  = NewRCON "0.0.0.0" 2301 "secret"
  ∧ writes (snd (handlePacket 0 (NewRCON "0.0.0.0" 2301 "secret") "10.0.0.1:5000"
                   [x42; x45; x00; x00; x00; x00; xff; x00; x73])) = [].
Proof.
  apply malformed_datagram_dropped. right. vm_compute. reflexivity.
Defined.

(** A login packet that carries the configured password, from a peer
    without a session, creates the session of the peer with the 50-second
    expiry and is answered with the login-successful packet; nothing else
    changes. The configured password must not be empty and must fit the
    4098 bytes that ParseCommand reads. *)
Theorem login_with_password (now : Z) (r : RCON) (addr : string) :
  cache.Get now addr (clients r) = None →
  password r ≠ ""%string →
  (String.length (password r) ≤ 4098)%nat →
  handlePacket now r addr (login_datagram (password r))
  = (set_clients (cache.Set_ now addr addr keepAliveCheck) r,
     [log_Printf (LogAuthenticated addr);
      WriteTo (MakeLoginResponsePacket LoginSuccessful) addr]).
Proof.
  intros Hget Hne Hlen. rewrite handlePacket_no_session by exact Hget.
  rewrite login_datagram_bytes, drop_6_Encode.
  rewrite ParseHeader_Encode by apply NewChecksum_range.
  cbn [Checksum NewPacketHeader]. rewrite VerifyChecksum_NewChecksum.
  cbn [negb]. rewrite ParsePacketType_cons.
  rewrite (bool_decide_eq_true_2 (LoginPacketType = LoginPacketType)) by reflexivity.
  cbn [negb].
  destruct (list_byte_of_string (password r)) as [|b rest] eqn:Hpw.
  { apply list_byte_of_string_nil in Hpw. contradiction. }
  rewrite ParseCommand_cons, <- Hpw.
  rewrite take_ge
    by (rewrite <- length_string_of_list_byte, string_of_list_byte_of_string; exact Hlen).
  rewrite string_of_list_byte_of_string.
  unfold handleAuthentication.
  rewrite (bool_decide_eq_true_2 (password r = password r)) by reflexivity.
  reflexivity.
Qed.

Lemma login_with_password_witness :
  handlePacket 0 (NewRCON "0.0.0.0" 2301 "secret") "10.0.0.1:5000"
               (login_datagram "secret")
  = (set_clients (cache.Set_ 0 "10.0.0.1:5000" "10.0.0.1:5000"%string keepAliveCheck)
                 (NewRCON "0.0.0.0" 2301 "secret"),
     [log_Printf (LogAuthenticated "10.0.0.1:5000");
      WriteTo (MakeLoginResponsePacket LoginSuccessful) "10.0.0.1:5000"]).
Proof.
  apply (login_with_password 0 (NewRCON "0.0.0.0" 2301 "secret") "10.0.0.1:5000").
  - vm_compute. reflexivity.
  - vm_compute. discriminate.
  - vm_compute. lia.
Defined.

(** ** The engine: wrong passwords and the block table *)

Lemma IncrementInt_live (now : Z) (k : string) (n : Z)
    (c : gmap string (Item Z)) (item : Item Z) :
  c !! k = Some item →
  cache.Expired now item = false →
  cache.IncrementInt now k n c
  = ((Object item + n + 2 ^ 63) mod 2 ^ 64 - 2 ^ 63, None,
     <[k := mkItem ((Object item + n + 2 ^ 63) mod 2 ^ 64 - 2 ^ 63)
                   (Expiration item)]> c).
Proof. intros Hlook Hlive. unfold cache.IncrementInt. rewrite Hlook, Hlive. reflexivity. Qed.

(** The first wrong password of an IP (no live counter) starts its counter
    at 1, to expire 30 minutes later, and leaves the block table alone. *)
Theorem wrong_password_first_failure (now : Z) (r : RCON) (addr password_ : string) :
  password_ ≠ password r →
  cache.Get now (addressWithoutPort addr) (wrongPasswordCounter r) = None →
  let r' := fst (handleAuthentication now r addr password_) in
  wrongPasswordCounter r' !! addressWithoutPort addr
  = Some (mkItem 1 (now + blockIpInterval))
  ∧ blockedIp r' = blockedIp r.
Proof.
  intros Hpw Hget r'. subst r'. unfold handleAuthentication.
  rewrite (bool_decide_eq_false_2 _ Hpw). cbn [negb]. rewrite Hget.
  cbn [wrongPasswordCounter set_wrongPasswordCounter].
  rewrite (IncrementInt_live now (addressWithoutPort addr) 1 _
             (mkItem 0 (now + blockIpInterval)));
    [ | unfold cache.Set_; rewrite lookup_insert_eq; reflexivity
      | apply (Expired_Set_now now blockIpInterval 0) ].
  cbn [Object Expiration].
  replace ((0 + 1 + 2 ^ 63) mod 2 ^ 64 - 2 ^ 63) with 1 by reflexivity.
  replace (loginTries <=? 1) with false by reflexivity.
  cbn [fst set_clients set_wrongPasswordCounter wrongPasswordCounter blockedIp].
  rewrite lookup_insert_eq.
  split; reflexivity.
Qed.

Lemma wrong_password_first_failure_witness :
  wrongPasswordCounter
    (fst (handleAuthentication 0 (NewRCON "0.0.0.0" 2301 "secret")
                               "10.0.0.1:5000" "wrong"))
    !! addressWithoutPort "10.0.0.1:5000"
  = Some (mkItem 1 (0 + blockIpInterval))
  ∧ blockedIp (fst (handleAuthentication 0 (NewRCON "0.0.0.0" 2301 "secret")
                                         "10.0.0.1:5000" "wrong"))
    = blockedIp (NewRCON "0.0.0.0" 2301 "secret").
Proof.
  apply (wrong_password_first_failure 0 (NewRCON "0.0.0.0" 2301 "secret")
           "10.0.0.1:5000" "wrong").
  - vm_compute. discriminate.
  - vm_compute. reflexivity.
Defined.

Lemma handleAuthentication_counts
    (now : Z) (r : RCON) (addr password_ : string) (item : Item Z) :
  password_ ≠ password r →
  wrongPasswordCounter r !! addressWithoutPort addr = Some item →
  cache.Expired now item = false →
  - 2 ^ 63 <= Object item < 2 ^ 63 - 1 →
  let r' := fst (handleAuthentication now r addr password_) in
  wrongPasswordCounter r' !! addressWithoutPort addr
  = Some (mkItem (Object item + 1) (Expiration item))
  ∧ blockedIp r'
    = if 5 <=? Object item + 1
      then <[addressWithoutPort addr := mkItem true (now + blockIpInterval)]>
             (blockedIp r)
      else blockedIp r.
Proof.
  intros Hpw Hlook Hlive Hn r'. subst r'. unfold handleAuthentication.
  rewrite (bool_decide_eq_false_2 _ Hpw). cbn [negb].
  unfold cache.Get. rewrite Hlook, Hlive.
  rewrite (IncrementInt_live now _ 1 _ item Hlook Hlive).
  replace ((Object item + 1 + 2 ^ 63) mod 2 ^ 64 - 2 ^ 63) with (Object item + 1)
    by (rewrite Z.mod_small; lia).
  unfold loginTries.
  destruct (5 <=? Object item + 1);
    cbn [fst set_clients set_blockedIp set_wrongPasswordCounter
         wrongPasswordCounter blockedIp];
    rewrite lookup_insert_eq; split; reflexivity.
Qed.

(** A further wrong password of an IP whose counter is live adds one to
    the counter and keeps the expiry of the counter: the 30 minutes run
    from the first failure. The IP enters the block table, for 30 minutes
    from now, exactly when the new count reaches 5. *)
Theorem wrong_password_counts
    (now : Z) (r : RCON) (addr password_ : string) (item : Item Z) :
  password_ ≠ password r →
  wrongPasswordCounter r !! addressWithoutPort addr = Some item →
  cache.Expired now item = false →
  - 2 ^ 63 <= Object item < 2 ^ 63 - 1 →
  let r' := fst (handleAuthentication now r addr password_) in
  wrongPasswordCounter r' !! addressWithoutPort addr
  = Some (mkItem (Object item + 1) (Expiration item))
  ∧ blockedIp r'
    = if 5 <=? Object item + 1
      then <[addressWithoutPort addr := mkItem true (now + blockIpInterval)]>
             (blockedIp r)
      else blockedIp r.
Proof.
  intros Hpw Hlook Hlive Hn.
  apply (handleAuthentication_counts now r addr password_ item Hpw Hlook Hlive Hn).
Qed.

Lemma wrong_password_counts_witness :
  let r := fst (handleAuthentication 0 (NewRCON "0.0.0.0" 2301 "secret")
                                     "10.0.0.1:5000" "wrong") in
  wrongPasswordCounter (fst (handleAuthentication second r "10.0.0.1:5001" "wrong"))
    !! addressWithoutPort "10.0.0.1:5001"
  = Some (mkItem 2 blockIpInterval).
Proof.
  intros r.
  apply (wrong_password_counts second r "10.0.0.1:5001" "wrong"
           (mkItem 1 blockIpInterval)).
  - vm_compute. discriminate.
  - vm_compute. reflexivity.
  - vm_compute. reflexivity.
  - cbn [Object]. lia.
Defined.

(** Once a wrong password has brought the counter of an IP to 5 or more,
    every datagram from that IP, from any port, that arrives within the
    next 30 minutes is discarded by the loop: no state change, no output. *)
Theorem blocked_after_threshold
    (now now' : Z) (r : RCON) (addr addr' password_ : string) (n : Z)
    (data : list byte) :
  password_ ≠ password r →
  cache.Get now (addressWithoutPort addr) (wrongPasswordCounter r) = Some n →
  4 <= n < 2 ^ 63 - 1 →
  addressWithoutPort addr' = addressWithoutPort addr →
  now <= now' <= now + blockIpInterval →
  let r' := fst (handleAuthentication now r addr password_) in
  serve_datagram now' r' addr' data = (r', []).
Proof.
  intros Hpw Hget Hn Hip Hnow r'. subst r'.
  unfold cache.Get in Hget.
  destruct (wrongPasswordCounter r !! addressWithoutPort addr) as [item|] eqn:Hlook;
    [|discriminate].
  destruct (cache.Expired now item) eqn:Hlive; [discriminate|].
  injection Hget as Hobj.
  destruct (handleAuthentication_counts now r addr password_ item Hpw Hlook Hlive
              ltac:(lia)) as [_ Hblock].
  unfold serve_datagram.
  assert (addressInBlockedList now'
            (fst (handleAuthentication now r addr password_))
            (addressWithoutPort addr') = true) as ->.
  { apply addressInBlockedList_Get. rewrite Hip, Hblock.
    destruct (Z.leb_spec 5 (Object item + 1)); [|lia].
    unfold cache.Get. rewrite lookup_insert_eq.
    unfold cache.Expired. cbn [Expiration].
    destruct (Z.ltb_spec (now + blockIpInterval) now'); [lia|].
    rewrite andb_false_r. eauto. }
  rewrite orb_true_r. reflexivity.
Qed.

Lemma blocked_after_threshold_witness :
  let r := set_wrongPasswordCounter
             (cache.Set_ 0 "10.0.0.1" 4 blockIpInterval ∅)
             (NewRCON "0.0.0.0" 2301 "secret") in
  serve_datagram minute (fst (handleAuthentication second r "10.0.0.1:5000" "wrong"))
                 "10.0.0.1:6000" (login_datagram "secret")
  = (fst (handleAuthentication second r "10.0.0.1:5000" "wrong"), []).
Proof.
  intros r.
  apply (blocked_after_threshold second minute r "10.0.0.1:5000" "10.0.0.1:6000"
           "wrong" 4).
  - vm_compute. discriminate.
  - vm_compute. reflexivity.
  - lia.
  - vm_compute. reflexivity.
  - unfold blockIpInterval, minute, second. lia.
Defined.

(** The block ends: more than 30 minutes after the wrong password that
    blocked it, the IP is no longer in the blocked list (times are positive
    Unix times), unless it was blocked again in between. *)
Theorem block_expires
    (now now' : Z) (r : RCON) (addr password_ : string) (n : Z) :
  password_ ≠ password r →
  cache.Get now (addressWithoutPort addr) (wrongPasswordCounter r) = Some n →
  4 <= n < 2 ^ 63 - 1 →
  0 <= now →
  now + blockIpInterval < now' →
  addressInBlockedList now' (fst (handleAuthentication now r addr password_))
                       (addressWithoutPort addr) = false.
Proof.
  intros Hpw Hget Hn H0 Hnow.
  unfold cache.Get in Hget.
  destruct (wrongPasswordCounter r !! addressWithoutPort addr) as [item|] eqn:Hlook;
    [|discriminate].
  destruct (cache.Expired now item) eqn:Hlive; [discriminate|].
  injection Hget as Hobj.
  destruct (handleAuthentication_counts now r addr password_ item Hpw Hlook Hlive
              ltac:(lia)) as [_ Hblock].
  apply not_true_is_false. intros Hin.
  apply addressInBlockedList_Get in Hin. rewrite Hblock in Hin.
  destruct (Z.leb_spec 5 (Object item + 1)); [|lia].
  unfold cache.Get in Hin. rewrite lookup_insert_eq in Hin.
  assert (0 < blockIpInterval) by reflexivity.
  rewrite Expired_at in Hin by lia.
  destruct (Z.ltb_spec (now + blockIpInterval) now'); [|lia].
  destruct Hin as [x Hx]. discriminate.
Qed.

Lemma block_expires_witness :
  let r := set_wrongPasswordCounter
             (cache.Set_ 0 "10.0.0.1" 4 blockIpInterval ∅)
             (NewRCON "0.0.0.0" 2301 "secret") in
  addressInBlockedList (31 * minute)
    (fst (handleAuthentication second r "10.0.0.1:5000" "wrong"))
    (addressWithoutPort "10.0.0.1:5000") = false.
Proof.
  intros r.
  apply (block_expires second (31 * minute) r "10.0.0.1:5000" "wrong" 4).
  - vm_compute. discriminate.
  - vm_compute. reflexivity.
  - lia.
  - unfold second. lia.
  - unfold blockIpInterval, minute, second. lia.
Defined.

(** ** The engine: packets of a peer with a session *)

(** A command packet with a command, from a peer with a session: the
    session is refreshed and the command callback, when one is registered,
    is called with the sequence number, the command (the first 4098 bytes
    that follow the sequence number) and the peer; the engine itself
    writes nothing. Without a callback the packet only refreshes the
    session. *)
Theorem command_dispatched
    (now : Z) (r : RCON) (addr : string) (data : list byte)
    (ph : PacketHeader) (s b : byte) (c : list byte) :
  is_Some (cache.Get now addr (clients r)) →
  ParseHeader data = (ph, None, CommandPacketType :: s :: b :: c) →
  VerifyChecksum (drop 6 data) (Checksum ph) = true →
  handlePacket now r addr data
  = (set_clients (cache.Set_ now addr addr keepAliveCheck) r,
     match commandHandler r with
     | Some handler => handler s (string_of_list_byte (take 4098 (b :: c))) addr
     | None => []
     end).
Proof.
  intros Hget Hh Hsum. unfold handlePacket. rewrite Hh, Hsum.
  rewrite (bool_decide_eq_true_2 _ Hget). cbn [negb andb].
  rewrite ParsePacketType_cons.
  rewrite (bool_decide_eq_true_2 (CommandPacketType = CommandPacketType))
    by reflexivity.
  rewrite ParseSequenceNumber_cons. cbn [Reader_Len length Nat.eqb].
  rewrite ParseCommand_cons. cbn [commandHandler set_clients].
  destruct (commandHandler r); reflexivity.
Qed.

Lemma command_dispatched_witness :
  let echo : byte → string → string → list Output :=
    λ seq command from,
      [WriteTo (MakeCommandResponsePacket seq (list_byte_of_string command)) from] in
  let r := OnCommand echo
             (set_clients (cache.Set_ 0 "10.0.0.1:5000" "10.0.0.1:5000"%string
                                      keepAliveCheck)
                          (NewRCON "0.0.0.0" 2301 "secret")) in
  handlePacket second r "10.0.0.1:5000"
               (MakeCommandResponsePacket x07 (list_byte_of_string "players"))
  = (set_clients (cache.Set_ second "10.0.0.1:5000" "10.0.0.1:5000"%string
                             keepAliveCheck) r,
     [WriteTo (MakeCommandResponsePacket x07 (list_byte_of_string "players"))
              "10.0.0.1:5000"]).
Proof.
  intros echo r.
  apply (command_dispatched second r "10.0.0.1:5000"
           (MakeCommandResponsePacket x07 (list_byte_of_string "players"))
           (NewPacketHeader
              (NewChecksum (xff :: x01 :: x07 :: list_byte_of_string "players")))
           x07 x70 (list_byte_of_string "layers")).
  - vm_compute. eexists. reflexivity.
  - vm_compute. reflexivity.
  - vm_compute. reflexivity.
Defined.

(** A server-message packet from a peer with a session is an
    acknowledgement: the session is refreshed and the key made of the
    peer address, "_" and the decimal sequence number is stored for 15
    seconds; nothing is written. *)
Theorem acknowledge_recorded
    (now : Z) (r : RCON) (addr : string) (data : list byte)
    (ph : PacketHeader) (s : byte) (c : list byte) :
  is_Some (cache.Get now addr (clients r)) →
  ParseHeader data = (ph, None, ServerMessagePacketType :: s :: c) →
  VerifyChecksum (drop 6 data) (Checksum ph) = true →
  handlePacket now r addr data
  = (set_serverMessageAcknowledges
       (cache.Set_ now (addr +:+ "_" +:+ Itoa s) true (15 * second))
       (set_clients (cache.Set_ now addr addr keepAliveCheck) r),
     []).
Proof.
  intros Hget Hh Hsum. unfold handlePacket. rewrite Hh, Hsum.
  rewrite (bool_decide_eq_true_2 _ Hget). cbn [negb andb].
  rewrite ParsePacketType_cons.
  rewrite (bool_decide_eq_false_2 (ServerMessagePacketType = CommandPacketType))
    by discriminate.
  rewrite (bool_decide_eq_true_2 (ServerMessagePacketType = ServerMessagePacketType))
    by reflexivity.
  rewrite ParseSequenceNumber_cons. reflexivity.
Qed.

Lemma acknowledge_recorded_witness :
  let r := set_clients (cache.Set_ 0 "10.0.0.1:5000" "10.0.0.1:5000"%string
                                   keepAliveCheck)
                       (NewRCON "0.0.0.0" 2301 "secret") in
  handlePacket second r "10.0.0.1:5000" (MakeServerMessagePacket x07 [])
  = (set_serverMessageAcknowledges
       (cache.Set_ second ("10.0.0.1:5000" +:+ "_" +:+ Itoa x07) true (15 * second))
       (set_clients (cache.Set_ second "10.0.0.1:5000" "10.0.0.1:5000"%string
                                keepAliveCheck) r),
     []).
Proof.
  intros r.
  apply (acknowledge_recorded second r "10.0.0.1:5000"
           (MakeServerMessagePacket x07 [])
           (NewPacketHeader (NewChecksum [xff; x02; x07])) x07 []).
  - vm_compute. eexists. reflexivity.
  - vm_compute. reflexivity.
  - vm_compute. reflexivity.
Defined.

(** A packet of any other type from a peer with a session, a login packet
    included, only refreshes the session: it is not answered. *)
Theorem other_packet_refreshes_only
    (now : Z) (r : RCON) (addr : string) (data : list byte)
    (ph : PacketHeader) (t : PacketType) (rest : list byte) :
  is_Some (cache.Get now addr (clients r)) →
  ParseHeader data = (ph, None, t :: rest) →
  VerifyChecksum (drop 6 data) (Checksum ph) = true →
  t ≠ CommandPacketType →
  t ≠ ServerMessagePacketType →
  handlePacket now r addr data
  = (set_clients (cache.Set_ now addr addr keepAliveCheck) r, []).
Proof.
  intros Hget Hh Hsum Hc Hs. unfold handlePacket. rewrite Hh, Hsum.
  rewrite (bool_decide_eq_true_2 _ Hget). cbn [negb andb].
  rewrite ParsePacketType_cons.
  rewrite (bool_decide_eq_false_2 _ Hc), (bool_decide_eq_false_2 _ Hs).
  reflexivity.
Qed.

Lemma other_packet_refreshes_only_witness :
  let r := set_clients (cache.Set_ 0 "10.0.0.1:5000" "10.0.0.1:5000"%string
                                   keepAliveCheck)
                       (NewRCON "0.0.0.0" 2301 "secret") in
  handlePacket second r "10.0.0.1:5000" (login_datagram "secret")
  = (set_clients (cache.Set_ second "10.0.0.1:5000" "10.0.0.1:5000"%string
                             keepAliveCheck) r, []).
Proof.
  intros r.
  apply (other_packet_refreshes_only second r "10.0.0.1:5000"
           (login_datagram "secret")
           (NewPacketHeader
              (NewChecksum (xff :: x00 :: list_byte_of_string "secret")))
           x00 (list_byte_of_string "secret")).
  - vm_compute. eexists. reflexivity.
  - vm_compute. reflexivity.
  - vm_compute. reflexivity.
  - discriminate.
  - discriminate.
Defined.

(** ** The engine: what a datagram never does *)

Section Invariants.

(** What [handleAuthentication] does to the state. *)
Lemma handleAuthentication_effect (now : Z) (r : RCON) (addr password_ : string) :
  let r' := fst (handleAuthentication now r addr password_) in
  (host r' = host r ∧ port r' = port r ∧ password r' = password r
   ∧ commandHandler r' = commandHandler r ∧ ipBanList r' = ipBanList r
   ∧ seqNumber r' = seqNumber r)
  ∧ clients r' = cache.Set_ now addr addr keepAliveCheck (clients r)
  ∧ dom (blockedIp r) ⊆ dom (blockedIp r')
  ∧ dom (wrongPasswordCounter r) ⊆ dom (wrongPasswordCounter r')
  ∧ serverMessageAcknowledges r' = serverMessageAcknowledges r.
Proof.
  intros r'. subst r'. unfold handleAuthentication.
  destruct (negb (bool_decide (password_ = password r)));
    [|cbn; repeat split; reflexivity].
  unfold cache.IncrementInt.
  destruct (cache.Get now (addressWithoutPort addr) (wrongPasswordCounter r));
    cbn [wrongPasswordCounter set_wrongPasswordCounter];
    match goal with
    | |- context [match ?m !! ?k with _ => _ end] => destruct (m !! k) as [v|]
    end;
    try destruct (cache.Expired now v);
    match goal with
    | |- context [loginTries <=? ?t] => destruct (loginTries <=? t)
    end;
    cbn; unfold cache.Set_; rewrite ?dom_insert_L;
    repeat split; try reflexivity; set_solver.
Qed.

Lemma effect_none (now : Z) (r : RCON) (addr : string) :
  datagram_effect now addr r r.
Proof. unfold datagram_effect. repeat split; try reflexivity. left. reflexivity. Qed.

Lemma effect_refresh (now : Z) (r : RCON) (addr : string) :
  datagram_effect now addr r
    (set_clients (cache.Set_ now addr addr keepAliveCheck) r).
Proof. unfold datagram_effect. repeat split; try reflexivity. right. reflexivity. Qed.

Lemma effect_acknowledge (now d : Z) (r : RCON) (addr k : string) :
  datagram_effect now addr r
    (set_serverMessageAcknowledges (cache.Set_ now k true d)
       (set_clients (cache.Set_ now addr addr keepAliveCheck) r)).
Proof.
  unfold datagram_effect. repeat split; try reflexivity.
  - right. reflexivity.
  - cbn. unfold cache.Set_. rewrite dom_insert_L. set_solver.
Qed.

(** What [handlePacket] does to the state. *)
Lemma handlePacket_effect (now : Z) (r : RCON) (addr : string) (data : list byte) :
  datagram_effect now addr r (fst (handlePacket now r addr data)).
Proof.
  unfold handlePacket.
  destruct (ParseHeader data) as [[packetHeader [err|]] input];
    [apply effect_none|].
  destruct (negb (VerifyChecksum _ _)); [apply effect_none|].
  destruct (ParsePacketType input) as [[packetType [err|]] input1];
    [apply effect_none|].
  destruct (negb _ && negb _); [apply effect_none|].
  destruct (negb _ && bool_decide _).
  { destruct (ParseCommand input1) as [[password_ [err|]] input2];
      [apply effect_none|].
    destruct (handleAuthentication_effect now r addr password_)
      as (Hc & Hcl & Hb & Hw & Ha).
    unfold datagram_effect. repeat split; try apply Hc; try assumption.
    - right. exact Hcl.
    - rewrite Ha. reflexivity. }
  assert (datagram_effect now addr r
            (fst (if bool_decide (packetType = ServerMessagePacketType)
                  then
                    match ParseSequenceNumber input1 with
                    | (_, Some err, _) =>
                        (set_clients (cache.Set_ now addr addr keepAliveCheck) r,
                         [Logger_Printf (LogAckSequenceError addr err)])
                    | (seq, None, _) =>
                        (set_serverMessageAcknowledges
                           (cache.Set_ now (addr +:+ "_" +:+ Itoa seq) true
                                       (15 * second))
                           (set_clients (cache.Set_ now addr addr keepAliveCheck) r),
                         [])
                    end
                  else (set_clients (cache.Set_ now addr addr keepAliveCheck) r,
                        []))))
    as Hack.
  { destruct (bool_decide (packetType = ServerMessagePacketType));
      [|apply effect_refresh].
    destruct (ParseSequenceNumber input1) as [[seq [err|]] input2];
      [apply effect_refresh | apply effect_acknowledge]. }
  destruct (bool_decide (packetType = CommandPacketType)); [|exact Hack].
  destruct (ParseSequenceNumber input1) as [[seq [err|]] input2];
    [apply effect_refresh|].
  destruct (Reader_Len input2 =? 0)%nat; [apply effect_refresh|].
  destruct (ParseCommand input2) as [[command [err|]] input3];
    [apply effect_refresh|].
  cbn [commandHandler set_clients].
  destruct (commandHandler r); [apply effect_refresh | exact Hack].
Qed.

Lemma clients_keyed_Set (now d : Z) (r : RCON) (addr : string) :
  clients_keyed r →
  ∀ k item, cache.Set_ now addr addr d (clients r) !! k = Some item →
            Object item = k.
Proof.
  intros Hk k item. unfold cache.Set_.
  destruct (decide (addr = k)) as [->|Hne].
  - rewrite lookup_insert_eq. intros [= <-]. reflexivity.
  - rewrite lookup_insert_ne by exact Hne. apply Hk.
Qed.

Lemma handlePacket_clients_keyed (now : Z) (r : RCON) (addr : string)
    (data : list byte) :
  clients_keyed r → clients_keyed (fst (handlePacket now r addr data)).
Proof.
  intros Hk.
  destruct (handlePacket_effect now r addr data) as (_ & [Hcl|Hcl] & _);
    unfold clients_keyed; rewrite Hcl; [exact Hk|].
  apply clients_keyed_Set, Hk.
Qed.

End Invariants.

(** Without a command callback, no datagram changes the configuration of
    the engine: the host, the port, the password, the ban list and the
    sequence register are the same after handlePacket, and there is still
    no callback, whatever the datagram and its source. *)
Theorem handlePacket_keeps_configuration
    (now : Z) (r : RCON) (addr : string) (data : list byte) :
  commandHandler r = None →
  let r' := fst (handlePacket now r addr data) in
  host r' = host r ∧ port r' = port r ∧ password r' = password r
  ∧ commandHandler r' = None ∧ ipBanList r' = ipBanList r
  ∧ seqNumber r' = seqNumber r.
Proof.
  intros Hnone r'. subst r'.
  destruct (handlePacket_effect now r addr data)
    as ((Hh & Hp & Hpw & Hc & Hb & Hs) & _).
  rewrite Hc. repeat split; assumption.
Qed.

Lemma handlePacket_keeps_configuration_witness :
  let r := SetIPBanList ["10.0.0.9"%string] (NewRCON "0.0.0.0" 2301 "secret") in
  let r' := fst (handlePacket 0 r "10.0.0.1:5000" (login_datagram "wrong")) in
  host r' = host r ∧ port r' = port r ∧ password r' = password r
  ∧ commandHandler r' = None ∧ ipBanList r' = ipBanList r
  ∧ seqNumber r' = seqNumber r.
Proof.
  intros r.
  apply (handlePacket_keeps_configuration 0 r "10.0.0.1:5000"
           (login_datagram "wrong")).
  reflexivity.
Defined.

(** Without a command callback, handlePacket removes no entry from any
    table: the keys of the clients, block, wrong-password and acknowledge
    caches before the datagram are still keys after it. *)
Theorem handlePacket_removes_nothing
    (now : Z) (r : RCON) (addr : string) (data : list byte) :
  commandHandler r = None →
  let r' := fst (handlePacket now r addr data) in
  dom (clients r) ⊆ dom (clients r')
  ∧ dom (blockedIp r) ⊆ dom (blockedIp r')
  ∧ dom (wrongPasswordCounter r) ⊆ dom (wrongPasswordCounter r')
  ∧ dom (serverMessageAcknowledges r) ⊆ dom (serverMessageAcknowledges r').
Proof.
  intros Hnone r'. subst r'.
  destruct (handlePacket_effect now r addr data) as (_ & Hcl & Hb & Hw & Ha).
  repeat split; try assumption.
  destruct Hcl as [-> | ->]; [reflexivity|].
  unfold cache.Set_. rewrite dom_insert_L. set_solver.
Qed.

Lemma handlePacket_removes_nothing_witness :
  let r := set_clients (cache.Set_ 0 "10.0.0.2:5000" "10.0.0.2:5000"%string
                                   keepAliveCheck)
             (set_blockedIp (cache.Set_ 0 "10.0.0.3" true blockIpInterval)
                            (NewRCON "0.0.0.0" 2301 "secret")) in
  let r' := fst (handlePacket second r "10.0.0.1:5000" (login_datagram "wrong")) in
  dom (clients r) ⊆ dom (clients r')
  ∧ dom (blockedIp r) ⊆ dom (blockedIp r')
  ∧ dom (wrongPasswordCounter r) ⊆ dom (wrongPasswordCounter r')
  ∧ dom (serverMessageAcknowledges r) ⊆ dom (serverMessageAcknowledges r').
Proof.
  intros r.
  apply (handlePacket_removes_nothing second r "10.0.0.1:5000"
           (login_datagram "wrong")).
  reflexivity.
Defined.

(** Without a command callback, a datagram touches the session of its own
    source only: the entry of every other address in the clients cache is
    the same after handlePacket. *)
Theorem handlePacket_other_sessions
    (now : Z) (r : RCON) (addr other : string) (data : list byte) :
  commandHandler r = None →
  other ≠ addr →
  clients (fst (handlePacket now r addr data)) !! other = clients r !! other.
Proof.
  intros Hnone Hne.
  destruct (handlePacket_effect now r addr data) as (_ & [-> | ->] & _);
    [reflexivity|].
  unfold cache.Set_. apply lookup_insert_ne. congruence.
Qed.

Lemma handlePacket_other_sessions_witness :
  let r := set_clients (cache.Set_ 0 "10.0.0.2:5000" "10.0.0.2:5000"%string
                                   keepAliveCheck)
                       (NewRCON "0.0.0.0" 2301 "secret") in
  clients (fst (handlePacket second r "10.0.0.1:5000" (login_datagram "secret")))
    !! "10.0.0.2:5000"
  = clients r !! "10.0.0.2:5000"
  ∧ clients r !! "10.0.0.2:5000"
    = Some (mkItem "10.0.0.2:5000"%string (50 * second))
  ∧ is_Some (clients (fst (handlePacket second r "10.0.0.1:5000"
                                        (login_datagram "secret")))
               !! "10.0.0.1:5000").
Proof.
  intros r. split; [|split].
  - apply (handlePacket_other_sessions second r "10.0.0.1:5000" "10.0.0.2:5000"
             (login_datagram "secret")).
    + reflexivity.
    + vm_compute. discriminate.
  - vm_compute. reflexivity.
  - vm_compute. eexists. reflexivity.
Defined.

(** Along any run of the loop, every entry of the clients cache holds the
    address it is stored under. *)
Theorem serve_clients_keyed (r : RCON) (datagrams : list (Z * string * list byte)) :
  clients_keyed r → clients_keyed (fst (serve r datagrams)).
Proof.
  revert r. induction datagrams as [|[[now addr] data] rest IH]; intros r Hk;
    [exact Hk|].
  cbn [serve].
  destruct (serve_datagram now r addr data) as [r1 out] eqn:Hstep.
  specialize (IH r1).
  destruct (serve r1 rest) as [r2 out']. cbn [fst] in *. apply IH.
  unfold serve_datagram in Hstep.
  destruct (addressInBanList r (addressWithoutPort addr)
            || addressInBlockedList now r (addressWithoutPort addr)).
  - injection Hstep as <- _. exact Hk.
  - pose proof (handlePacket_clients_keyed now r addr (take 4096 data) Hk) as Hk1.
    rewrite Hstep in Hk1. exact Hk1.
Qed.

Lemma serve_clients_keyed_witness :
  clients_keyed (fst (serve (NewRCON "0.0.0.0" 2301 "x") five_wrong_passwords)).
Proof.
  apply serve_clients_keyed.
  intros k item H. vm_compute in H. discriminate.
Defined.

(** ** Sessions and their enumeration *)

Section Sessions.

Lemma handlePacket_session_clients
    (now : Z) (r : RCON) (addr : string) (data : list byte)
    (ph : PacketHeader) (t : PacketType) (rest : list byte) :
  is_Some (cache.Get now addr (clients r)) →
  ParseHeader data = (ph, None, t :: rest) →
  VerifyChecksum (drop 6 data) (Checksum ph) = true →
  clients (fst (handlePacket now r addr data))
  = cache.Set_ now addr addr keepAliveCheck (clients r).
Proof.
  intros Hget Hh Hsum. unfold handlePacket. rewrite Hh, Hsum.
  rewrite (bool_decide_eq_true_2 _ Hget). cbn [negb andb].
  rewrite ParsePacketType_cons.
  assert (∀ input : Reader,
            clients
              (fst (if bool_decide (t = ServerMessagePacketType)
                    then
                      match ParseSequenceNumber input with
                      | (_, Some err, _) =>
                          (set_clients (cache.Set_ now addr addr keepAliveCheck) r,
                           [Logger_Printf (LogAckSequenceError addr err)])
                      | (seq, None, _) =>
                          (set_serverMessageAcknowledges
                             (cache.Set_ now (addr +:+ "_" +:+ Itoa seq) true
                                         (15 * second))
                             (set_clients (cache.Set_ now addr addr keepAliveCheck) r),
                           [])
                      end
                    else (set_clients (cache.Set_ now addr addr keepAliveCheck) r,
                          [])))
            = cache.Set_ now addr addr keepAliveCheck (clients r)) as Hack.
  { intros input. destruct (bool_decide (t = ServerMessagePacketType));
      [|reflexivity].
    destruct (ParseSequenceNumber input) as [[seq [err|]] input2]; reflexivity. }
  destruct (bool_decide (t = CommandPacketType)); [|apply Hack].
  destruct (ParseSequenceNumber rest) as [[seq [err|]] input2]; [reflexivity|].
  destruct (Reader_Len input2 =? 0)%nat; [reflexivity|].
  destruct (ParseCommand input2) as [[command [err|]] input3]; [reflexivity|].
  cbn [commandHandler set_clients].
  destruct (commandHandler r); [reflexivity|].
  destruct (bool_decide (t = ServerMessagePacketType)); reflexivity.
Qed.

End Sessions.

(** The idle timeout, in the state that handlePacket leaves: after a valid
    packet of a peer with a session was handled at [now] (a positive Unix
    time) by an engine without a command callback, a lookup of the peer in
    the clients cache of that state finds the session at every time up to
    50 seconds later and at no later time. What removes or renews the entry
    afterwards (a further packet of the peer, an eviction by Broadcast) is
    not part of the statement. *)
Theorem session_expires_after_50_seconds
    (now now' : Z) (r : RCON) (addr : string) (data : list byte)
    (ph : PacketHeader) (t : PacketType) (rest : list byte) :
  commandHandler r = None →
  is_Some (cache.Get now addr (clients r)) →
  ParseHeader data = (ph, None, t :: rest) →
  VerifyChecksum (drop 6 data) (Checksum ph) = true →
  0 <= now →
  cache.Get now' addr (clients (fst (handlePacket now r addr data)))
  = if now + 50 * second <? now' then None else Some addr.
Proof.
  intros Hnone Hget Hh Hsum Hnow.
  rewrite (handlePacket_session_clients now r addr data ph t rest Hget Hh Hsum).
  unfold cache.Get, cache.Set_. rewrite lookup_insert_eq.
  replace (0 <? keepAliveCheck) with true by reflexivity.
  rewrite Expired_at by (unfold keepAliveCheck, second; lia).
  cbn [Object]. reflexivity.
Qed.

Lemma session_expires_after_50_seconds_witness :
  let r := set_clients (cache.Set_ 0 "10.0.0.1:5000" "10.0.0.1:5000"%string
                                   keepAliveCheck)
                       (NewRCON "0.0.0.0" 2301 "secret") in
  cache.Get (52 * second) "10.0.0.1:5000"
            (clients (fst (handlePacket second r "10.0.0.1:5000"
                                        (MakeCommandResponsePacket x42 []))))
  = if second + 50 * second <? 52 * second then None else Some "10.0.0.1:5000"%string.
Proof.
  intros r.
  apply (session_expires_after_50_seconds second (52 * second) r "10.0.0.1:5000"
           (MakeCommandResponsePacket x42 [])
           (NewPacketHeader (NewChecksum [xff; x01; x42])) x01 [x42]).
  - reflexivity.
  - vm_compute. eexists. reflexivity.
  - vm_compute. reflexivity.
  - vm_compute. reflexivity.
  - unfold second. lia.
Defined.

(** Clients: when every entry of the clients cache holds the address it is
    stored under, the enumeration contains an address exactly when the
    address has a session that has not expired. *)
Theorem Clients_are_live_sessions (now : Z) (r : RCON) (addr : string) :
  clients_keyed r →
  In addr (Clients now r) ↔ is_Some (cache.Get now addr (clients r)).
Proof.
  intros Hk. unfold Clients, cache.Get, cache.Items. rewrite in_map_iff. split.
  - intros ([k item] & Hobj & Hin). cbn [snd] in Hobj.
    apply list_elem_of_In, elem_of_map_to_list in Hin.
    apply map_lookup_filter_Some in Hin. destruct Hin as [Hlook Hlive].
    cbn [snd] in Hlive. pose proof (Hk k item Hlook) as Hkey.
    assert (k = addr) as -> by congruence.
    rewrite Hlook, Hlive. eauto.
  - intros [x Hx].
    destruct (clients r !! addr) as [item|] eqn:Hlook; [|discriminate].
    destruct (cache.Expired now item) eqn:Hlive; [discriminate|].
    exists (addr, item). split; [exact (Hk addr item Hlook)|].
    apply list_elem_of_In, elem_of_map_to_list, map_lookup_filter_Some.
    split; [exact Hlook | exact Hlive].
Qed.

Lemma Clients_are_live_sessions_witness :
  let r := set_clients (cache.Set_ 0 "10.0.0.1:5000" "10.0.0.1:5000"%string
                                   keepAliveCheck)
             (set_clients (cache.Set_ 0 "10.0.0.2:5000" "10.0.0.2:5000"%string
                                      (10 * second))
                          (NewRCON "0.0.0.0" 2301 "secret")) in
  (In "10.0.0.1:5000"%string (Clients (20 * second) r)
   ↔ is_Some (cache.Get (20 * second) "10.0.0.1:5000" (clients r)))
  ∧ (In "10.0.0.2:5000"%string (Clients (20 * second) r)
     ↔ is_Some (cache.Get (20 * second) "10.0.0.2:5000" (clients r)))
  ∧ cache.Get (20 * second) "10.0.0.1:5000" (clients r) = Some "10.0.0.1:5000"%string
  ∧ cache.Get (20 * second) "10.0.0.2:5000" (clients r) = None
  ∧ clients r !! "10.0.0.2:5000" = Some (mkItem "10.0.0.2:5000"%string (10 * second)).
Proof.
  intros r.
  assert (clients_keyed r) as Hk.
  { intros k item H. subst r. cbn [clients set_clients NewRCON] in H.
    unfold cache.Set_ in H.
    destruct (decide ("10.0.0.1:5000"%string = k)) as [<-|H1].
    - rewrite lookup_insert_eq in H. injection H as <-. reflexivity.
    - rewrite lookup_insert_ne in H by exact H1.
      destruct (decide ("10.0.0.2:5000"%string = k)) as [<-|H2].
      + rewrite lookup_insert_eq in H. injection H as <-. reflexivity.
      + rewrite lookup_insert_ne, lookup_empty in H by exact H2.
        discriminate. }
  split; [apply (Clients_are_live_sessions (20 * second) r "10.0.0.1:5000" Hk)|].
  split; [apply (Clients_are_live_sessions (20 * second) r "10.0.0.2:5000" Hk)|].
  split; [vm_compute; reflexivity|].
  split; vm_compute; reflexivity.
Defined.

(** addressInBlockedList: the loop over the items of the block cache finds
    an address exactly when the cache holds an entry for it that has not
    expired. *)
Theorem addressInBlockedList_live (now : Z) (r : RCON) (addr : string) :
  addressInBlockedList now r addr
  = bool_decide (is_Some (cache.Get now addr (blockedIp r))).
Proof.
  destruct (addressInBlockedList now r addr) eqn:Hin; symmetry.
  - apply bool_decide_eq_true_2, addressInBlockedList_Get, Hin.
  - apply bool_decide_eq_false_2. intros Hget.
    apply addressInBlockedList_Get in Hget. congruence.
Qed.

(** ** addressWithoutPort *)

Section Address.

Lemma addressWithoutPort_Split (addr : string) :
  Split ":" addr = addressWithoutPort addr :: tl (Split ":" addr).
Proof.
  induction addr as [|c rest IH]; [reflexivity|].
  cbn [Split addressWithoutPort].
  destruct (Ascii.eqb c ":"); [reflexivity|].
  rewrite IH. reflexivity.
Qed.

Lemma ip_port_without_port (ip port_ : string) :
  ¬ In ":"%char (list_ascii_of_string ip) →
  addressWithoutPort (ip +:+ ":" +:+ port_) = ip.
Proof.
  induction ip as [|c ip IH]; intros Hin; [reflexivity|].
  change (String c ip +:+ ":" +:+ port_) with (String c (ip +:+ ":" +:+ port_)).
  cbn [addressWithoutPort list_ascii_of_string] in *.
  destruct (Ascii.eqb_spec c ":") as [->|Hc].
  - exfalso. apply Hin. left. reflexivity.
  - f_equal. apply IH. intros H. apply Hin. right. exact H.
Qed.

End Address.

(** addressWithoutPort is the first part of the split at ":": it contains
    no colon, it is a prefix of the address, and applying it twice changes
    nothing. *)
Theorem addressWithoutPort_first_part (addr : string) :
  hd ""%string (Split ":" addr) = addressWithoutPort addr
  ∧ ¬ In ":"%char (list_ascii_of_string (addressWithoutPort addr))
  ∧ String.prefix (addressWithoutPort addr) addr = true
  ∧ addressWithoutPort (addressWithoutPort addr) = addressWithoutPort addr.
Proof.
  split; [rewrite addressWithoutPort_Split; reflexivity|].
  induction addr as [|c rest (Hin & Hpre & Hidem)].
  { split; [intros []|]. split; reflexivity. }
  cbn [addressWithoutPort].
  destruct (Ascii.eqb_spec c ":") as [->|Hc].
  { split; [intros []|]. split; reflexivity. }
  cbn [list_ascii_of_string String.prefix addressWithoutPort In].
  destruct (Ascii.eqb_spec c ":") as [|_]; [contradiction|].
  rewrite Hidem.
  destruct (ascii_dec c c) as [_|Hcc]; [|contradiction].
  split; [|split; [exact Hpre | reflexivity]].
  intros [Heq|Hin']; [congruence | contradiction].
Qed.

(** For an address made of an IP without a colon, ":" and a port,
    addressWithoutPort is the IP. *)
Theorem addressWithoutPort_ip_port (ip port_ : string) :
  ¬ In ":"%char (list_ascii_of_string ip) →
  addressWithoutPort (ip +:+ ":" +:+ port_) = ip.
Proof.
  induction ip as [|c ip IH]; intros Hin; [reflexivity|].
  change (String c ip +:+ ":" +:+ port_) with (String c (ip +:+ ":" +:+ port_)).
  cbn [addressWithoutPort list_ascii_of_string] in *.
  destruct (Ascii.eqb_spec c ":") as [->|Hc].
  - exfalso. apply Hin. left. reflexivity.
  - f_equal. apply IH. intros H. apply Hin. right. exact H.
Qed.

Lemma addressWithoutPort_ip_port_witness :
  addressWithoutPort ("10.0.0.1" +:+ ":" +:+ "5000") = "10.0.0.1"%string.
Proof.
  apply addressWithoutPort_ip_port. vm_compute. intuition discriminate.
Defined.

(** ** NextSequenceNumber *)

(** After every call the sequence register is between 0 and 255, whatever
    it was before, and nothing else of the engine has changed. *)
Theorem NextSequenceNumber_register (r : RCON) :
  let r' := snd (NextSequenceNumber r) in
  0 <= seqNumber r' <= 255
  ∧ r = set_seqNumber (seqNumber r) r'.
Proof.
  intros r'. subst r'. destruct r as [h p pw ch cl bl wp ban n acks].
  unfold NextSequenceNumber, uint32_mod. cbn [seqNumber].
  pose proof (Z.mod_pos_bound (n + 1) (2 ^ 32) ltac:(lia)) as Hm.
  destruct (Z.ltb_spec 255 ((n + 1) mod 2 ^ 32));
    cbn [snd seqNumber set_seqNumber host port password commandHandler clients
         blockedIp wrongPasswordCounter ipBanList serverMessageAcknowledges];
    (split; [lia|reflexivity]).
Qed.

(** ** The acknowledgements that Broadcast looks for *)

Section Acknowledge.

Lemma Split_first_part (sep : ascii) (a b : string) :
  ¬ In sep (list_ascii_of_string a) →
  Split sep (a +:+ String sep b) = a :: Split sep b.
Proof.
  induction a as [|c a IH]; intros Hin.
  - change (Split sep (String sep b) = ""%string :: Split sep b).
    cbn [Split]. rewrite Ascii.eqb_refl. reflexivity.
  - change (String c a +:+ String sep b) with (String c (a +:+ String sep b)).
    cbn [Split list_ascii_of_string In] in *.
    destruct (Ascii.eqb_spec c sep) as [->|Hc]; [exfalso; apply Hin; left; reflexivity|].
    rewrite IH by (intros H; apply Hin; right; exact H). reflexivity.
Qed.

Lemma Split_Itoa (s : byte) : Split "_" (Itoa s) = [Itoa s].
Proof. destruct s; vm_compute; reflexivity. Qed.

Lemma Z_of_byte_inj (s s' : byte) : Z_of_byte s = Z_of_byte s' → s = s'.
Proof.
  intros H. rewrite <- (byte_of_Z_of_byte s), <- (byte_of_Z_of_byte s'), H.
  reflexivity.
Qed.

Lemma Itoa_inj (s s' : byte) : Itoa s = Itoa s' → s = s'.
Proof. unfold Itoa. intros H. apply Z_of_byte_inj, (inj pretty), H. Qed.

End Acknowledge.

(** The key that handlePacket stores for an acknowledgement of the peer
    [addr] with the sequence number [s] passes the test of Broadcast for
    the peer [addr'] and the sequence number [s'] exactly when the peers
    and the sequence numbers are the same, for peer addresses without "_";
    the test does not panic on such a key. *)
Theorem acknowledge_key_matches (addr addr' : string) (s s' : byte) :
  ¬ In "_"%char (list_ascii_of_string addr) →
  acknowledge_matches (addr +:+ "_" +:+ Itoa s) addr' s'
  = Some (bool_decide (addr = addr') && bool_decide (s' = s)).
Proof.
  intros Hin. unfold acknowledge_matches.
  change ("_" +:+ Itoa s) with (String "_" (Itoa s)).
  rewrite Split_first_part by exact Hin. rewrite Split_Itoa.
  destruct (bool_decide (addr = addr')); [|reflexivity].
  cbn [andb]. f_equal.
  destruct (decide (s' = s)) as [->|Hne].
  - rewrite !bool_decide_eq_true_2 by reflexivity. reflexivity.
  - rewrite !bool_decide_eq_false_2; [reflexivity | exact Hne |].
    intros H. apply Itoa_inj in H. contradiction.
Qed.

Lemma acknowledge_key_matches_witness :
  acknowledge_matches ("10.0.0.1:5000" +:+ "_" +:+ Itoa x07) "10.0.0.1:5000" x07
  = Some (bool_decide ("10.0.0.1:5000"%string = "10.0.0.1:5000"%string)
          && bool_decide (x07 = x07)).
Proof.
  apply acknowledge_key_matches. vm_compute. intuition discriminate.
Defined.

(** ** The loop: bans, and whom the engine writes to *)

(** A ban does not wear off: for an IP that contains no colon and is in
    the ban list, datagrams from that IP (source addresses of the form
    ip:port), however many and whenever they arrive, leave the state as it
    is and produce no output. *)
Theorem banned_forever (r : RCON) (ip : string)
    (datagrams : list (Z * string * list byte)) :
  ¬ In ":"%char (list_ascii_of_string ip) →
  In ip (ipBanList r) →
  Forall (λ d, ∃ port_ : string, d.1.2 = ip +:+ ":" +:+ port_) datagrams →
  serve r datagrams = (r, []).
Proof.
  intros Hcolon Hban Hall.
  induction Hall as [|[[now addr] data] rest [port_ Hip] _ IH];
    [reflexivity|].
  cbn [serve fst snd] in *. unfold serve_datagram.
  rewrite Hip, (ip_port_without_port ip port_ Hcolon).
  rewrite (addressInBanList_In r ip Hban). cbn [orb].
  rewrite IH. reflexivity.
Qed.

Lemma banned_forever_witness :
  serve (SetIPBanList ["10.0.0.1"%string] (NewRCON "0.0.0.0" 2301 "x"))
        five_wrong_passwords
  = (SetIPBanList ["10.0.0.1"%string] (NewRCON "0.0.0.0" 2301 "x"), []).
Proof.
  apply (banned_forever _ "10.0.0.1").
  - vm_compute. intuition discriminate.
  - simpl. left. reflexivity.
  - unfold five_wrong_passwords. cbn [map].
    repeat constructor; exists "5000"%string; reflexivity.
Defined.

Section Writes.

Lemma writes_app (out out' : list Output) :
  writes (out ++ out') = writes out ++ writes out'.
Proof. unfold writes. apply omap_app. Qed.

Lemma handleAuthentication_writes (now : Z) (r : RCON) (addr password_ : string) :
  Forall (λ w, w.2 = addr) (writes (snd (handleAuthentication now r addr password_))).
Proof.
  unfold handleAuthentication.
  destruct (negb (bool_decide (password_ = password r)));
    [|cbn; repeat constructor].
  destruct (cache.Get now (addressWithoutPort addr) (wrongPasswordCounter r));
    match goal with
    | |- context [cache.IncrementInt ?n ?k ?d ?c] =>
        destruct (cache.IncrementInt n k d c) as [[times err] counter]
    end;
    destruct (loginTries <=? times); cbn; repeat constructor.
Qed.

End Writes.

(** Without a command callback the engine writes to the source of the
    datagram it handles and to nobody else. *)
Theorem engine_answers_sender_only
    (now : Z) (r : RCON) (addr : string) (data : list byte) :
  commandHandler r = None →
  Forall (λ w, w.2 = addr) (writes (snd (handlePacket now r addr data))).
Proof.
  intros Hnone. unfold handlePacket.
  destruct (ParseHeader data) as [[packetHeader [err|]] input];
    [cbn; constructor|].
  destruct (negb (VerifyChecksum _ _)); [cbn; constructor|].
  destruct (ParsePacketType input) as [[packetType [err|]] input1];
    [cbn; constructor|].
  destruct (negb _ && negb _); [cbn; constructor|].
  destruct (negb _ && bool_decide _).
  { destruct (ParseCommand input1) as [[password_ [err|]] input2];
      [cbn; constructor | apply handleAuthentication_writes]. }
  cbn [commandHandler set_clients]. rewrite Hnone.
  destruct (bool_decide (packetType = CommandPacketType)).
  - destruct (ParseSequenceNumber input1) as [[seq [err|]] input2];
      [cbn; constructor|].
    destruct (Reader_Len input2 =? 0)%nat; [cbn; repeat constructor|].
    destruct (ParseCommand input2) as [[command [err|]] input3];
      [cbn; constructor|].
    destruct (bool_decide (packetType = ServerMessagePacketType));
      cbn; constructor.
  - destruct (bool_decide (packetType = ServerMessagePacketType));
      [|cbn; constructor].
    destruct (ParseSequenceNumber input1) as [[seq [err|]] input2];
      cbn; constructor.
Qed.

Lemma engine_answers_sender_only_witness :
  Forall (λ w, w.2 = "10.0.0.1:5000"%string)
    (writes (snd (handlePacket 0 (NewRCON "0.0.0.0" 2301 "secret") "10.0.0.1:5000"
                               (login_datagram "wrong")))).
Proof.
  apply engine_answers_sender_only. reflexivity.
Defined.
